(** * Tool permissions: pattern matcher, policy evaluator, loader and service

    A shallow embedding of [core/tools/permissions] (permissionChecker.ts,
    permissionsYamlLoader.ts, ToolPermissionsService.ts, types.ts) and the
    properties its specification states about it.

    Modelling conventions.
    - A JavaScript string is a [string]: a sequence of code units below 256.
      The two ECMAScript line terminators in that range are LF (010) and CR
      (013); U+2028 and U+2029 are outside the model.
    - A [Record<string, any>] is a plain object: a [gmap string JsValue]
      of own properties, behind which stand the members of
      [Object.prototype].  Reading a key gives the own property, else the
      inherited member of that name, else [JsUndefined].
    - Numbers and objects stay abstract behind the [JsHost] interface: the
      code only converts them to a string, tests them for truthiness or
      compares them with [===].
    - A dynamic evaluator is a total function: it returns a [ToolPolicy]
      and does not throw. *)

From Stdlib Require Import Ascii String List Bool ZArith DecimalString Lia.
From stdpp Require Import base option list gmap strings sorting.

(** ** JavaScript strings *)

Module JsString.
Local Open Scope char_scope.

(** [s.includes(c)] for a one-character needle. *)
Fixpoint includes (c : ascii) (s : string) : bool :=
  match s with
  | EmptyString => false
  | String d r => Ascii.eqb d c || includes c r
  end.

(** [s.replace(/c/g, by)]: every occurrence of the character [c] is
    replaced by the string [by_]. *)
Fixpoint replaceAll (c : ascii) (by_ : string) (s : string) : string :=
  match s with
  | EmptyString => EmptyString
  | String d r =>
      if Ascii.eqb d c then by_ +:+ replaceAll c by_ r
      else String d (replaceAll c by_ r)
  end.

(** ECMAScript LineTerminator, restricted to code units below 256. *)
Definition isLineTerminator (c : ascii) : bool :=
  Ascii.eqb c "010" || Ascii.eqb c "013".

(** ECMAScript WhiteSpace or LineTerminator (what [trim] strips),
    restricted to code units below 256: TAB, LF, VT, FF, CR, SP, NBSP. *)
Definition isTrimmed (c : ascii) : bool :=
  existsb (Ascii.eqb c) ["009"; "010"; "011"; "012"; "013"; " "; "160"].

Fixpoint trimStart (s : string) : string :=
  match s with
  | EmptyString => EmptyString
  | String c r => if isTrimmed c then trimStart r else s
  end.

Fixpoint trimEnd (s : string) : string :=
  match s with
  | EmptyString => EmptyString
  | String c r =>
      match trimEnd r with
      | EmptyString => if isTrimmed c then EmptyString else String c EmptyString
      | r' => String c r'
      end
  end.

(** [s.trim()] *)
Definition trim (s : string) : string := trimEnd (trimStart s).

(** [s.startsWith(p)], returning what follows the prefix. *)
Fixpoint stripPrefix (p s : string) : option string :=
  match p, s with
  | EmptyString, _ => Some s
  | String a p', String b s' => if Ascii.eqb a b then stripPrefix p' s' else None
  | String _ _, EmptyString => None
  end.

(** Splits off the last character. *)
Fixpoint unsnoc (s : string) : option (string * ascii) :=
  match s with
  | EmptyString => None
  | String c r =>
      match unsnoc r with
      | None => Some (EmptyString, c)
      | Some (i, l) => Some (String c i, l)
      end
  end.

Fixpoint forallb (f : ascii -> bool) (s : string) : bool :=
  match s with
  | EmptyString => true
  | String c r => f c && forallb f r
  end.

(** No character of [s] is a line terminator: what a run of [.] can match. *)
Definition lineFree (s : string) : bool :=
  forallb (fun d => negb (isLineTerminator d)) s.

(** No character of [s] is [c]: what a run of the class [[^c]] can match. *)
Definition excludes (c : ascii) (s : string) : bool :=
  forallb (fun d => negb (Ascii.eqb d c)) s.

(** The longest prefix whose characters satisfy [f], and the rest. *)
Fixpoint span (f : ascii -> bool) (s : string) : string * string :=
  match s with
  | EmptyString => (EmptyString, EmptyString)
  | String c r =>
      if f c then let '(a, b) := span f r in (String c a, b)
      else (EmptyString, s)
  end.

End JsString.

(** ** Regular expressions

    The fragment of ECMAScript pattern syntax that the glob compiler of
    permissionChecker.ts can produce: a pattern anchored by [^] and [$]
    whose terms are atoms, each optionally followed by a star.  An atom is
    [.], an identity escape of a syntax character, or a character that is
    not a syntax character.  The pattern carries no flag. *)

Module RegExp.
Local Open Scope char_scope.

Inductive atom : Type :=
| Lit (c : ascii)
| Dot.

Inductive token : Type :=
| TAtom (a : atom)
| TStar
| TCaret
| TDollar.

(** One term: an atom and whether it is starred. *)
Definition term : Type := atom * bool.

(** A compiled pattern: the terms between [^] and [$]. *)
Definition t : Type := list term.

(** SyntaxCharacter of the ECMAScript grammar. *)
Definition isSyntaxCharacter (c : ascii) : bool :=
  existsb (Ascii.eqb c)
    ["^"; "$"; "\"; "."; "*"; "+"; "?"; "("; ")"; "["; "]"; "{"; "}"; "|"].

(** Lexer.  [None] is a source outside the fragment: for ECMAScript itself
    either a SyntaxError or a construct that is not modelled here. *)
Fixpoint tokens (src : string) : option (list token) :=
  match src with
  | EmptyString => Some []
  | String "\" (String c r) =>
      if isSyntaxCharacter c then cons (TAtom (Lit c)) <$> tokens r else None
  | String "\" EmptyString => None
  | String "." r => cons (TAtom Dot) <$> tokens r
  | String "*" r => cons TStar <$> tokens r
  | String "^" r => cons TCaret <$> tokens r
  | String "$" r => cons TDollar <$> tokens r
  | String c r =>
      if isSyntaxCharacter c then None else cons (TAtom (Lit c)) <$> tokens r
  end.

(** Parser for the terms up to the closing [$]. *)
Fixpoint terms (ts : list token) : option t :=
  match ts with
  | [TDollar] => Some []
  | TAtom a :: TStar :: r => cons (a, true) <$> terms r
  | TAtom a :: r => cons (a, false) <$> terms r
  | _ => None
  end.

Definition parse (ts : list token) : option t :=
  match ts with
  | TCaret :: r => terms r
  | _ => None
  end.

(** [new RegExp(src)] *)
Definition create (src : string) : option t := tokens src ≫= parse.

(** Without the [s] flag, [.] matches any character except a line
    terminator. *)
Definition atomMatches (a : atom) (c : ascii) : bool :=
  match a with
  | Lit d => Ascii.eqb d c
  | Dot => negb (JsString.isLineTerminator c)
  end.

(** Whether the whole of [s] is matched by the term sequence.  Without the
    [m] flag the anchors are the two ends of the input, so [test] succeeds
    exactly when some way of sharing [s] among the terms exists. *)
Fixpoint matchTerms (re : t) (s : string) {struct re} : bool :=
  match re with
  | [] => match s with EmptyString => true | _ => false end
  | (a, false) :: re' =>
      match s with
      | String c r => atomMatches a c && matchTerms re' r
      | EmptyString => false
      end
  | (a, true) :: re' =>
      (fix star (s : string) : bool :=
         matchTerms re' s ||
         match s with
         | String c r => atomMatches a c && star r
         | EmptyString => false
         end) s
  end.

(** [regex.test(s)] *)
Definition test (re : t) (s : string) : bool := matchTerms re s.

End RegExp.

(** ** Glob patterns as compiled by permissionChecker.ts *)

(** The character class of the first [replace]: the twelve characters
    . + ^ $ { } ( ) | [ ] and the backslash. *)
Definition isEscapedMeta (c : ascii) : bool :=
  existsb (Ascii.eqb c)
    ["."; "+"; "^"; "$"; "{"; "}"; "("; ")"; "|"; "["; "]"; "\"]%char.

(** The first [replace]: each character of the class is preceded by a
    backslash. *)
Fixpoint escapeMeta (s : string) : string :=
  match s with
  | EmptyString => EmptyString
  | String c r =>
      if isEscapedMeta c then String "\" (String c (escapeMeta r))
      else String c (escapeMeta r)
  end.

(** The two further [replace] calls: every star becomes dot-star, then
    every question mark becomes a dot. *)
Definition regexPattern (pattern : string) : string :=
  JsString.replaceAll "?" "." (JsString.replaceAll "*" ".*" (escapeMeta pattern)).

(** The template literal that wraps [regexPattern] in [^] and [$]. *)
Definition globSource (pattern : string) : string :=
  "^" +:+ regexPattern pattern +:+ "$".

(** [new RegExp(source).test(subject)].  The constructor never rejects a
    source built this way (lemma [create_globSource]), so the [None] branch
    is dead. *)
Definition globTest (pattern subject : string) : bool :=
  match RegExp.create (globSource pattern) with
  | Some regex => RegExp.test regex subject
  | None => false
  end.

(** [pattern.includes("*") || pattern.includes("?")] *)
Definition hasWildcard (pattern : string) : bool :=
  JsString.includes "*" pattern || JsString.includes "?" pattern.

(** ** JavaScript values *)

(** The property names every plain object inherits from
    [Object.prototype]. *)
Definition objectPrototypeKeys : list string :=
  [ "constructor"; "__defineGetter__"; "__defineSetter__"; "hasOwnProperty";
    "__lookupGetter__"; "__lookupSetter__"; "isPrototypeOf";
    "propertyIsEnumerable"; "toString"; "valueOf"; "__proto__";
    "toLocaleString" ].

Definition isObjectPrototypeKey (key : string) : bool :=
  existsb (String.eqb key) objectPrototypeKeys.

(** What the code needs to know about numbers and objects. *)
Class JsHost : Type := {
  number : Type;
  (** [String(n)] *)
  numberToString : number -> string;
  (** false for [0], [-0] and [NaN] *)
  numberTruthy : number -> bool;
  (** [n === m]; not reflexive at [NaN] *)
  numberStrictEquals : number -> number -> bool;
  object : Type;
  (** [String(o)] *)
  objectToString : object -> string;
  (** [o === p]: the same reference *)
  objectSame : object -> object -> bool;
  (** The member of [Object.prototype] of that name, for the names of
      [objectPrototypeKeys]: a built-in function, or the prototype itself
      for [__proto__]. *)
  prototypeMember : string -> object;
}.

Section Values.
Context {host : JsHost}.

Inductive JsValue : Type :=
| JsUndefined
| JsNull
| JsBool (b : bool)
| JsNumber (n : number)
| JsString (s : string)
| JsObject (o : object).

(** ToBoolean *)
Definition truthy (v : JsValue) : bool :=
  match v with
  | JsUndefined | JsNull => false
  | JsBool b => b
  | JsNumber n => numberTruthy n
  | JsString s => negb (String.eqb s "")
  | JsObject _ => true
  end.

(** [String(v)] *)
Definition toString (v : JsValue) : string :=
  match v with
  | JsUndefined => "undefined"
  | JsNull => "null"
  | JsBool true => "true"
  | JsBool false => "false"
  | JsNumber n => numberToString n
  | JsString s => s
  | JsObject o => objectToString o
  end.

(** [v === w] *)
Definition strictEquals (v w : JsValue) : bool :=
  match v, w with
  | JsUndefined, JsUndefined => true
  | JsNull, JsNull => true
  | JsBool a, JsBool b => Bool.eqb a b
  | JsNumber n, JsNumber m => numberStrictEquals n m
  | JsString s, JsString t => String.eqb s t
  | JsObject o, JsObject p => objectSame o p
  | _, _ => false
  end.

(** [v ?? w] *)
Definition nullish (v w : JsValue) : JsValue :=
  match v with
  | JsUndefined | JsNull => w
  | _ => v
  end.

(** [args[key]] on a plain object: the own property; failing that, the
    member inherited from [Object.prototype]; failing that, [undefined]. *)
Definition getProperty (args : gmap string JsValue) (key : string) : JsValue :=
  match args !! key with
  | Some v => v
  | None =>
      if isObjectPrototypeKey key then JsObject (prototypeMember key)
      else JsUndefined
  end.

End Values.

(** ** types.ts *)

Inductive PermissionPolicy : Type := allow | ask | exclude.

(** Modelled from the spec: the type [ToolPolicy] is declared in the
    terminal-security package, which is not among these sources.  Its three
    values are the ones the two converters of permissionChecker.ts switch
    on (the risk-assessment vocabulary of the specification). *)
Inductive ToolPolicy : Type :=
| allowedWithoutPermission
| allowedWithPermission
| disabled.

Section Types.
Context {host : JsHost}.

Record ToolPermissionPolicy : Type := {
  tool : string;
  permission : PermissionPolicy;
  argumentMatches : option (gmap string JsValue);
}.

Record ToolPermissions : Type := {
  policies : list ToolPermissionPolicy;
}.

(** The field [permission] of the source is [resultPermission] here, the
    name being taken by [ToolPermissionPolicy]. *)
Record PermissionCheckResult : Type := {
  resultPermission : PermissionPolicy;
  matchedPolicy : option ToolPermissionPolicy;
}.

(** The three optional lists [allow], [ask] and [exclude]. *)
Record PermissionsYamlConfig : Type := {
  yamlAllow : option (list string);
  yamlAsk : option (list string);
  yamlExclude : option (list string);
}.

(** Modelled from the spec: the interface [Tool] is declared in the core
    index, which is not among these sources.  This is the part of it the
    permission system reads: [tool.function.name] and the optional
    [evaluateToolCallPolicy], a function of the base decision, the raw
    arguments and the normalized arguments. *)
Record Tool : Type := {
  functionName : string;
  evaluateToolCallPolicy :
    option (ToolPolicy -> gmap string JsValue ->
            option (gmap string JsValue) -> ToolPolicy);
}.

End Types.

(** ** permissionChecker.ts *)

Section PermissionChecker.
Context {host : JsHost}.

(** What follows the tool name and the opening parenthesis has to be
    matched by a greedy one-or-more run of [.], a closing parenthesis and
    the end of input.  The final closing parenthesis leaves the group a
    single choice: everything but the last character, which must be
    non-empty and free of line terminators. *)
Definition commandGroup (rest : string) : option string :=
  match JsString.unsnoc rest with
  | Some (String c body, ")"%char) =>
      if JsString.lineFree (String c body) then Some (String c body) else None
  | _ => None
  end.

(** The [pattern.match(...)] of [matchesToolPattern], reduced to capture
    group 1.  The regular expression is anchored and starts with one of
    the two tool names and an opening parenthesis; no string starts with
    both. *)
Definition commandMatch (pattern : string) : option string :=
  match JsString.stripPrefix "run_terminal_command(" pattern with
  | Some rest => commandGroup rest
  | None =>
      match JsString.stripPrefix "runTerminalCommand(" pattern with
      | Some rest => commandGroup rest
      | None => None
      end
  end.

Definition isTerminalTool (toolName : string) : bool :=
  String.eqb toolName "runTerminalCommand" ||
  String.eqb toolName "run_terminal_command".

(** [toolArguments?.command] *)
Definition commandOf (toolArguments : option (gmap string JsValue)) : JsValue :=
  match toolArguments with
  | Some args => getProperty args "command"
  | None => JsUndefined
  end.

Definition matchesToolPattern (toolName pattern : string)
    (toolArguments : option (gmap string JsValue)) : bool :=
  if String.eqb pattern "*" then true
  else if String.eqb pattern toolName then true
  else
    match commandMatch pattern with
    | Some commandPattern =>
        let command := commandOf toolArguments in
        if isTerminalTool toolName && truthy command then
          if hasWildcard commandPattern
          then globTest commandPattern (toString command)
          else strictEquals command (JsString commandPattern)
        else false
    | None =>
        if hasWildcard pattern then globTest pattern toolName else false
    end.

(** One iteration of the loop over [Object.entries(patterns)]: [false] is
    the early [return false], [true] is reaching the next iteration. *)
Definition argumentMatchesPattern (args : gmap string JsValue)
    (key : string) (pattern : JsValue) : bool :=
  let argValue := getProperty args key in
  if strictEquals pattern (JsString "*") then true
  else
    match pattern with
    | JsString p =>
        if hasWildcard p
        then globTest p (toString (nullish argValue (JsString "")))
        else strictEquals argValue pattern
    | _ => strictEquals argValue pattern
    end.

(** The loop either leaves with [false] or runs to the end, so the order
    in which [Object.entries] lists the keys does not matter. *)
Definition matchesArguments (args : gmap string JsValue)
    (patterns : option (gmap string JsValue)) : bool :=
  match patterns with
  | None => true
  | Some ps =>
      List.forallb (fun '(key, pattern) => argumentMatchesPattern args key pattern)
        (map_to_list ps)
  end.

Definition permissionPolicyToToolPolicy (p : PermissionPolicy) : ToolPolicy :=
  match p with
  | allow => allowedWithoutPermission
  | ask => allowedWithPermission
  | exclude => disabled
  end.

Definition toolPolicyToPermissionPolicy (p : ToolPolicy) : PermissionPolicy :=
  match p with
  | allowedWithoutPermission => allow
  | allowedWithPermission => ask
  | disabled => exclude
  end.

(** The condition of the [if] inside the loop of [checkToolPermission]. *)
Definition policyApplies (toolName : string) (toolArguments : gmap string JsValue)
    (policy : ToolPermissionPolicy) : bool :=
  matchesToolPattern toolName (tool policy) (Some toolArguments) &&
  matchesArguments toolArguments (argumentMatches policy).

(** The [for (const policy of policies)] loop with its [break]: the values
    of [basePermission] and [matchedPolicy] when it is left. *)
Fixpoint scanPolicies (toolName : string) (toolArguments : gmap string JsValue)
    (ps : list ToolPermissionPolicy)
    : PermissionPolicy * option ToolPermissionPolicy :=
  match ps with
  | [] => (allow, None)
  | policy :: rest =>
      if policyApplies toolName toolArguments policy
      then (permission policy, Some policy)
      else scanPolicies toolName toolArguments rest
  end.

(** [tool?.evaluateToolCallPolicy] *)
Definition dynamicEvaluator (t : option Tool) :=
  t ≫= evaluateToolCallPolicy.

Definition checkToolPermission (toolName : string)
    (toolArguments : gmap string JsValue) (permissions : ToolPermissions)
    (processedArgs : option (gmap string JsValue)) (t : option Tool)
    : PermissionCheckResult :=
  let '(basePermission, matched) :=
    scanPolicies toolName toolArguments (policies permissions) in
  match dynamicEvaluator t with
  | Some evaluate =>
      let basePolicy := permissionPolicyToToolPolicy basePermission in
      let evaluatedPolicy := evaluate basePolicy toolArguments processedArgs in
      let evaluatedPermission := toolPolicyToPermissionPolicy evaluatedPolicy in
      match basePermission, evaluatedPermission with
      | exclude, _ | _, exclude =>
          {| resultPermission := exclude; matchedPolicy := matched |}
      | ask, _ | _, ask =>
          {| resultPermission := ask; matchedPolicy := matched |}
      | _, _ =>
          {| resultPermission := allow; matchedPolicy := matched |}
      end
  | None =>
      {| resultPermission := basePermission; matchedPolicy := matched |}
  end.

Definition filterExcludedTools (tools : list Tool) (permissions : ToolPermissions)
    : list Tool :=
  List.filter
    (fun t =>
       match resultPermission
               (checkToolPermission (functionName t) ∅ permissions None (Some t)) with
       | exclude => false
       | _ => true
       end)
    tools.

End PermissionChecker.

(** ** permissionsYamlLoader.ts *)

(** A computation that returns a value or throws an [Error]. *)
Inductive Result (A : Type) : Type :=
| Ok (a : A)
| Throw (message : string).
Arguments Ok {A} a.
Arguments Throw {A} message.

#[global] Instance Result_bind : MBind Result := fun A B k r =>
  match r with
  | Ok a => k a
  | Throw m => Throw m
  end.

(** The [pattern.match(...)] of [parseToolPattern], reduced to groups 1
    and 2.  Its regular expression is anchored at both ends: group 1 is one
    or more characters other than an opening parenthesis; then, optionally,
    an opening parenthesis, group 2 (any run of characters other than a
    closing parenthesis) and a closing parenthesis.
    Group 1 is the longest prefix free of opening parentheses (a shorter
    one would have to be followed by an opening parenthesis or by the end)
    and must not be empty.  What follows is either nothing, or an opening
    parenthesis, a run free of closing parentheses, and a closing
    parenthesis that ends the string. *)
Definition toolPatternMatch (pattern : string) : option (string * option string) :=
  let '(toolName, rest) := JsString.span (fun c => negb (Ascii.eqb c "(")) pattern in
  match toolName, rest with
  | EmptyString, _ => None
  | _, EmptyString => Some (toolName, None)
  | _, String _ inner =>
      match JsString.unsnoc inner with
      | Some (args, ")"%char) =>
          if JsString.excludes ")" args then Some (toolName, Some args) else None
      | _ => None
      end
  end.

(** The own properties of the object literal [toolArgMappings]. *)
Definition toolArgMappings : gmap string string :=
  list_to_map
    [ ("run_terminal_command", "command");
      ("runTerminalCommand", "command");
      ("read_file", "file_path");
      ("read_file_range", "file_path");
      ("create_new_file", "file_path");
      ("edit_existing_file", "file_path");
      ("grep_search", "query");
      ("file_glob_search", "pattern");
      ("search_web", "query") ].

Section Loader.
Context {host : JsHost}.

(** [toolArgMappings[normalizedName] || "pattern"], as the property name
    it becomes in [{ [argKey]: trimmedArgs }].  The look-up finds the
    entry of the table; failing that, the member the object literal
    inherits from [Object.prototype], which is truthy and becomes a
    property name through its string form; failing that, the fallback. *)
Definition argumentKey (normalizedName : string) : string :=
  match toolArgMappings !! normalizedName with
  | Some argKey => argKey
  | None =>
      if isObjectPrototypeKey normalizedName
      then objectToString (prototypeMember normalizedName)
      else "pattern"
  end.

Definition parseToolPattern (pattern : string) (perm : PermissionPolicy)
    : Result ToolPermissionPolicy :=
  match toolPatternMatch pattern with
  | None => Throw ("Invalid tool pattern: " +:+ pattern)
  | Some (toolName, args) =>
      let normalizedName := JsString.trim toolName in
      Ok {| tool := normalizedName;
            permission := perm;
            argumentMatches :=
              match args with
              | Some (String _ _ as args) =>
                  match JsString.trim args with
                  | String _ _ as trimmedArgs =>
                      let argKey := argumentKey normalizedName in
                      Some {[ argKey := JsString trimmedArgs ]}
                  | EmptyString => None
                  end
              | _ => None
              end |}
  end.

(** One [for (const pattern of ...)] loop: each parsed policy is pushed
    onto [policies]; the first pattern that fails to parse throws. *)
Fixpoint pushPatterns (acc : list ToolPermissionPolicy) (patterns : list string)
    (perm : PermissionPolicy) : Result (list ToolPermissionPolicy) :=
  match patterns with
  | [] => Ok acc
  | pattern :: rest =>
      policy ← parseToolPattern pattern perm;
      pushPatterns (acc ++ [policy]) rest perm
  end.

(** [if (config.category) { for ... }] *)
Definition pushCategory (acc : list ToolPermissionPolicy)
    (patterns : option (list string)) (perm : PermissionPolicy)
    : Result (list ToolPermissionPolicy) :=
  match patterns with
  | Some ps => pushPatterns acc ps perm
  | None => Ok acc
  end.

Definition yamlConfigToPolicies (config : PermissionsYamlConfig)
    : Result (list ToolPermissionPolicy) :=
  excluded ← pushCategory [] (yamlExclude config) exclude;
  asked ← pushCategory excluded (yamlAsk config) ask;
  pushCategory asked (yamlAllow config) allow.

End Loader.

(** ** ToolPermissionsService.ts *)

Section Service.
Context {host : JsHost}.

(** The private fields of the service.  A watcher is known by a handle. *)
Record ToolPermissionsService : Type := {
  permissions : option ToolPermissions;
  watchHandle : option nat;
  enabled : bool;
}.

(** [reload()], given what [loadPermissionsYaml()] returned. *)
Definition reload (yamlConfig : option PermissionsYamlConfig)
    (this : ToolPermissionsService) : ToolPermissionsService :=
  let loaded :=
    match yamlConfig with
    | Some config =>
        match yamlConfigToPolicies config with
        | Ok ps => Some {| policies := ps |}
        | Throw _ => None
        end
    | None => None
    end in
  {| permissions := loaded;
     watchHandle := watchHandle this;
     enabled := enabled this |}.

Definition isEnabled (this : ToolPermissionsService) : bool :=
  enabled this &&
  match permissions this with
  | Some _ => true
  | None => false
  end.

Definition checkPermission (this : ToolPermissionsService) (t : Tool)
    (toolArguments : gmap string JsValue)
    (processedArgs : option (gmap string JsValue)) : PermissionCheckResult :=
  match enabled this, permissions this with
  | true, Some perms =>
      checkToolPermission (functionName t) toolArguments perms processedArgs (Some t)
  | _, _ => {| resultPermission := allow; matchedPolicy := None |}
  end.

Definition dispose (this : ToolPermissionsService) : ToolPermissionsService :=
  {| permissions := permissions this;
     watchHandle := None;
     enabled := enabled this |}.

End Service.

(** ** A concrete host

    Integral numbers, and objects that carry an identity and their string
    form: enough to run the code on examples. *)

(** Where [key] stands in [keys] (their length when it does not). *)
Fixpoint positionOf (key : string) (keys : list string) : nat :=
  match keys with
  | [] => 0
  | k :: rest => if String.eqb key k then 0 else S (positionOf key rest)
  end.

(** The members of [Object.prototype] as an engine prints them: the
    constructor is the function [Object], [__proto__] gives the prototype
    object, every other member is a built-in function of its own name. *)
Definition examplePrototypeMember (name : string) : nat * string :=
  (positionOf name objectPrototypeKeys,
   if String.eqb name "__proto__" then "[object Object]"
   else
     "function " +:+ (if String.eqb name "constructor" then "Object" else name)
     +:+ "() { [native code] }").

#[global] Instance exampleHost : JsHost := {|
  number := Z;
  numberToString := fun n => NilZero.string_of_int (Z.to_int n);
  numberTruthy := fun n => negb (Z.eqb n 0);
  numberStrictEquals := Z.eqb;
  object := nat * string;
  objectToString := snd;
  objectSame := fun o p => Nat.eqb (fst o) (fst p);
  prototypeMember := examplePrototypeMember;
|}.

(** ** Reference notions of the specification *)

(** Glob matching of a whole subject against a pattern: a star stands for
    zero or more characters and a question mark for exactly one character,
    each taken from the class [wild]; every other pattern character stands
    for itself. *)
Inductive GlobMatch (wild : ascii -> bool) : string -> string -> Prop :=
| glob_end :
    GlobMatch wild EmptyString EmptyString
| glob_literal c p s :
    c <> "*"%char -> c <> "?"%char ->
    GlobMatch wild p s -> GlobMatch wild (String c p) (String c s)
| glob_one c p s :
    wild c = true ->
    GlobMatch wild p s -> GlobMatch wild (String "?" p) (String c s)
| glob_many_stop p s :
    GlobMatch wild p s -> GlobMatch wild (String "*" p) s
| glob_many_step c p s :
    wild c = true ->
    GlobMatch wild (String "*" p) s -> GlobMatch wild (String "*" p) (String c s).

(** Wildcards range over all characters. *)
Definition anyCharacter (c : ascii) : bool := true.

(** Wildcards range over the characters that are not line terminators. *)
Definition notLineTerminator (c : ascii) : bool :=
  negb (JsString.isLineTerminator c).

(** The tokens and the terms one glob character compiles to. *)
Definition globTokens (c : ascii) : list RegExp.token :=
  if Ascii.eqb c "*" then [RegExp.TAtom RegExp.Dot; RegExp.TStar]
  else if Ascii.eqb c "?" then [RegExp.TAtom RegExp.Dot]
  else [RegExp.TAtom (RegExp.Lit c)].

Fixpoint globTokenList (pattern : string) : list RegExp.token :=
  match pattern with
  | EmptyString => []
  | String c r => globTokens c ++ globTokenList r
  end.

Definition globTerm (c : ascii) : RegExp.term :=
  if Ascii.eqb c "*" then (RegExp.Dot, true)
  else if Ascii.eqb c "?" then (RegExp.Dot, false)
  else (RegExp.Lit c, false).

Fixpoint globTerms (pattern : string) : RegExp.t :=
  match pattern with
  | EmptyString => []
  | String c r => globTerm c :: globTerms r
  end.

(** The total order of restrictiveness: exclude > ask > allow. *)
Definition restrictiveness (p : PermissionPolicy) : nat :=
  match p with
  | allow => 0
  | ask => 1
  | exclude => 2
  end.

Definition mostRestrictive (p q : PermissionPolicy) : PermissionPolicy :=
  if restrictiveness p <? restrictiveness q then q else p.

(** Parenthesis balance: every closing parenthesis closes an earlier opening
    one, and none stays open. *)
Fixpoint balancedFrom (depth : nat) (s : string) : bool :=
  match s with
  | EmptyString => Nat.eqb depth 0
  | String c r =>
      if Ascii.eqb c "(" then balancedFrom (S depth) r
      else if Ascii.eqb c ")" then
        match depth with
        | O => false
        | S d => balancedFrom d r
        end
      else balancedFrom depth r
  end.

Definition balanced (s : string) : bool := balancedFrom 0 s.

(** An opening parenthesis after which no closing parenthesis occurs. *)
Definition unclosedParenthesis (s : string) : Prop :=
  exists before after : string,
    s = before +:+ String "(" after /\ JsString.includes ")" after = false.

(** The special shape [<terminalToolName>(<argPattern>)]. *)
Definition terminalShape (pattern argPattern : string) : Prop :=
  exists terminalToolName : string,
    (terminalToolName = "run_terminal_command" \/
     terminalToolName = "runTerminalCommand") /\
    pattern = terminalToolName +:+ String "(" (argPattern +:+ ")").

Section Reference.
Context {host : JsHost}.

(** The static base permission: that of the first matching rule, [allow]
    when none matches. *)
Definition staticBase (toolName : string) (toolArguments : gmap string JsValue)
    (ps : list ToolPermissionPolicy) : PermissionPolicy :=
  match List.find (policyApplies toolName toolArguments) ps with
  | Some policy => permission policy
  | None => allow
  end.

(** The string form of the value read for a key (own property, else
    inherited member), [undefined] and [null], the two values [??]
    replaces, counting as the empty string. *)
Definition argumentText (args : gmap string JsValue) (key : string) : string :=
  match getProperty args key with
  | JsUndefined | JsNull => EmptyString
  | v => toString v
  end.




(** The key [command] is absent, null, or bound to the empty string. *)
Definition commandMissing (args : gmap string JsValue) : Prop :=
  args !! "command" = None \/
  args !! "command" = Some JsNull \/
  args !! "command" = Some (JsString "").

(** A tool survives the batch filter. *)
Definition kept (perms : ToolPermissions) (t : Tool) : Prop :=
  resultPermission (checkToolPermission (functionName t) ∅ perms None (Some t))
  <> exclude.

(** The number of tools whose evaluation with empty arguments is
    [exclude]. *)
Fixpoint countExcluded (tools : list Tool) (perms : ToolPermissions) : nat :=
  match tools with
  | [] => 0
  | t :: rest =>
      match resultPermission
              (checkToolPermission (functionName t) ∅ perms None (Some t)) with
      | exclude => S (countExcluded rest perms)
      | _ => countExcluded rest perms
      end
  end.

End Reference.

(** ** Example data *)

Section Examples.
Context {host : JsHost}.

Definition endToEndConfig : PermissionsYamlConfig :=
  {| yamlAllow := Some ["*"];
     yamlAsk := Some ["run_terminal_command"];
     yamlExclude := Some ["run_terminal_command(sudo*)"] |}.

Definition endToEndPolicies : list ToolPermissionPolicy :=
  [ {| tool := "run_terminal_command"; permission := exclude;
       argumentMatches := Some {[ "command" := JsString "sudo*" ]} |};
    {| tool := "run_terminal_command"; permission := ask; argumentMatches := None |};
    {| tool := "*"; permission := allow; argumentMatches := None |} ].

Definition askRun : ToolPermissionPolicy :=
  {| tool := "run"; permission := ask; argumentMatches := None |}.

Definition allowAll : ToolPermissionPolicy :=
  {| tool := "*"; permission := allow; argumentMatches := None |}.

Definition excludeGrep : ToolPermissionPolicy :=
  {| tool := "grep_search"; permission := exclude; argumentMatches := None |}.

(** A tool without a dynamic evaluator. *)
Definition plainTool (name : string) : Tool :=
  {| functionName := name; evaluateToolCallPolicy := None |}.

(** A tool whose dynamic evaluator always answers [verdict]. *)
Definition constantTool (name : string) (verdict : ToolPolicy) : Tool :=
  {| functionName := name;
     evaluateToolCallPolicy := Some (fun _ _ _ => verdict) |}.

Definition disabledService : ToolPermissionsService :=
  {| permissions := Some {| policies := [excludeGrep] |};
     watchHandle := None;
     enabled := false |}.

End Examples.

(** LF between two words. *)
Definition twoLines (first second : string) : string :=
  first +:+ String "010" second.

(** ** More about permissionsYamlLoader.ts *)

(** The two forms [parseToolPattern] documents: a name, or a name followed
    by an argument text in parentheses.  The name is not empty and holds no
    opening parenthesis; the argument text holds no closing parenthesis. *)
Definition wellFormedPattern (pattern : string) : Prop :=
  exists name,
    name <> EmptyString /\ JsString.excludes "(" name = true /\
    (pattern = name \/
     exists args,
       JsString.excludes ")" args = true /\
       pattern = name +:+ String "(" (args +:+ ")")).

(** ** More of ToolPermissionsService.ts *)

Section ServiceLifecycle.
Context {host : JsHost}.

(** [setupFileWatcher()], given what [fs.watch] did: [Some h] is the new
    watcher, stored in [watchHandle]; [None] is a throw, which is caught
    and logged and leaves the field as it was.  Closing the previous
    watcher acts on the file system only. *)
Definition setupFileWatcher (watched : option nat) (this : ToolPermissionsService)
    : ToolPermissionsService :=
  match watched with
  | Some handle =>
      {| permissions := permissions this;
         watchHandle := Some handle;
         enabled := enabled this |}
  | None => this
  end.

(** [initialize()], given the outcome of its three steps: whether
    [ensurePermissionsYamlExists()] resolved, what [loadPermissionsYaml()]
    returned inside [reload()], and what [fs.watch] did.  A rejection of
    the first step skips the others and lands in the [catch]; [reload] and
    [setupFileWatcher] catch their own errors. *)
Definition initialize (ensured : bool) (yamlConfig : option PermissionsYamlConfig)
    (watched : option nat) (this : ToolPermissionsService) : ToolPermissionsService :=
  if ensured then
    let watching := setupFileWatcher watched (reload yamlConfig this) in
    {| permissions := permissions watching;
       watchHandle := watchHandle watching;
       enabled := true |}
  else
    {| permissions := permissions this;
       watchHandle := watchHandle this;
       enabled := false |}.

(** The callback given to [fs.watch]: a [change] event reloads, any other
    event type does nothing.  The second argument is what
    [loadPermissionsYaml()] returns at that moment. *)
Definition onWatchEvent (eventType : string) (yamlConfig : option PermissionsYamlConfig)
    (this : ToolPermissionsService) : ToolPermissionsService :=
  if String.eqb eventType "change" then reload yamlConfig this else this.

(** The callback run once for each event of a sequence, in order. *)
Definition onWatchEvents (events : list (string * option PermissionsYamlConfig))
    (this : ToolPermissionsService) : ToolPermissionsService :=
  fold_left (fun service '(eventType, yamlConfig) =>
               onWatchEvent eventType yamlConfig service) events this.

(** [getPermissions()] *)
Definition getPermissions (this : ToolPermissionsService) : option ToolPermissions :=
  permissions this.

(** All pattern strings of a configuration, in the order they are parsed. *)
Definition configPatterns (config : PermissionsYamlConfig) : list string :=
  default [] (yamlExclude config) ++ default [] (yamlAsk config)
  ++ default [] (yamlAllow config).

(** The service as constructed: nothing loaded, not watching, not
    enabled. *)
Definition newService : ToolPermissionsService :=
  {| permissions := None; watchHandle := None; enabled := false |}.

End ServiceLifecycle.

(** ** isOpeningNestedBlock.ts *)

Section NestedBlock.

(** [headerIsMarkdown] is imported from a file that is not among these
    sources; it is a parameter. *)
Variable headerIsMarkdown : string -> bool.

(** The test [line.match(...)] of the look-ahead loop: the line is one or
    more backticks and nothing else. *)
Definition isBareBackticks (line : string) : bool :=
  match line with
  | EmptyString => false
  | _ => JsString.forallb (Ascii.eqb "`") line
  end.

(** [line.startsWith(prefix)] *)
Definition startsWith (prefix line : string) : bool :=
  match JsString.stripPrefix prefix line with
  | Some _ => true
  | None => false
  end.

(** The condition of the [break]: the line ends the current markdown
    block. *)
Definition endsMarkdownBlock (line : string) : bool :=
  startsWith "~~~" line ||
  (startsWith "```" line && headerIsMarkdown (JsString.replaceAll "`" "" line)).

(** The look-ahead loop over the lines that follow the current one: the
    value of [bareBackticksAhead] when the loop is left. *)
Fixpoint bareBackticksAhead (lines : list string) : nat :=
  match lines with
  | [] => 0
  | line :: rest =>
      if isBareBackticks line then S (bareBackticksAhead rest)
      else if endsMarkdownBlock line then 0
      else bareBackticksAhead rest
  end.

(** [currentIndex] is an index into [trimmedLines] and [nestCount] a
    nesting depth: natural numbers. *)
Definition isOpeningNestedBlock (trimmedLines : list string)
    (currentIndex nestCount : nat) : bool :=
  if 1 <? nestCount then false
  else Nat.odd (bareBackticksAhead (drop (S currentIndex) trimmedLines)).

End NestedBlock.

(** A stand-in for [headerIsMarkdown] on examples. *)
Definition exampleHeaderIsMarkdown (header : string) : bool :=
  String.eqb header "md" || String.eqb header "markdown".

(** ** Example data for the further properties *)

Section MoreExamples.
Context {host : JsHost}.

(** A configuration whose exclude entry lacks its closing parenthesis. *)
Definition malformedConfig : PermissionsYamlConfig :=
  {| yamlAllow := Some ["read_file"];
     yamlAsk := None;
     yamlExclude := Some ["run_terminal_command(sudo*"] |}.

Definition excludeSudo : ToolPermissionPolicy :=
  {| tool := "run_terminal_command"; permission := exclude;
     argumentMatches := Some {[ "command" := JsString "sudo*" ]} |}.

(** The restricted environment of README.md: three allowed commands and
    an exclude entry for every command. *)
Definition restrictedConfig : PermissionsYamlConfig :=
  {| yamlAllow := Some ["run_terminal_command(git status)";
                        "run_terminal_command(git log*)";
                        "run_terminal_command(npm test)"];
     yamlAsk := None;
     yamlExclude := Some ["run_terminal_command(*)"] |}.

End MoreExamples.

(** A markdown block holding a nested code block, closed by a tilde
    fence, and a line behind it. *)
Definition exampleLines : list string :=
  ["```"; "let x = 1"; "```"; "~~~"; "```"].

(** * Properties *)

(** ** Strings *)

Lemma append_cons c a b : String c a +:+ b = String c (a +:+ b).
Proof. reflexivity. Qed.

Lemma append_empty_l a : EmptyString +:+ a = a.
Proof. reflexivity. Qed.

Lemma append_empty_r a : a +:+ EmptyString = a.
Proof. induction a as [|c a IH]; [reflexivity|]. rewrite append_cons, IH. reflexivity. Qed.

(** Brings the characters of a literal prefix to the front. *)
Ltac expose_prefix := rewrite ?append_cons, ?append_empty_l.

(** Case analysis over the 256 characters. *)
Ltac each_character c :=
  destruct c as [[] [] [] [] [] [] [] []].

Lemma includes_append c a b :
  JsString.includes c (a +:+ b) = JsString.includes c a || JsString.includes c b.
Proof.
  induction a as [|d a IH]; [reflexivity|].
  rewrite append_cons. cbn [JsString.includes]. rewrite IH, orb_assoc. reflexivity.
Qed.

Lemma unsnoc_snoc a c : JsString.unsnoc (a +:+ String c EmptyString) = Some (a, c).
Proof.
  induction a as [|d a IH]; [reflexivity|].
  rewrite append_cons. cbn [JsString.unsnoc]. rewrite IH. reflexivity.
Qed.

Lemma unsnoc_Some s a c :
  JsString.unsnoc s = Some (a, c) -> s = a +:+ String c EmptyString.
Proof.
  revert a. induction s as [|d s IH]; intros a; [discriminate|].
  cbn [JsString.unsnoc]. destruct (JsString.unsnoc s) as [[i l]|] eqn:E.
  - intros [= <- <-]. rewrite append_cons. f_equal. apply IH. reflexivity.
  - intros [= <- <-]. destruct s as [|e s]; [reflexivity|].
    cbn [JsString.unsnoc] in E. destruct (JsString.unsnoc s) as [[]|]; discriminate.
Qed.

Lemma unsnoc_last s a c :
  JsString.unsnoc s = Some (a, c) -> JsString.includes c s = true.
Proof.
  intros ->%unsnoc_Some. rewrite includes_append. cbn [JsString.includes].
  rewrite Ascii.eqb_refl. apply orb_true_r.
Qed.

(** The last character of a string is the last character of any non-empty
    suffix of it. *)
Lemma unsnoc_append x y a c :
  y <> EmptyString -> JsString.unsnoc (x +:+ y) = Some (a, c) ->
  exists b, JsString.unsnoc y = Some (b, c).
Proof.
  intros Hy. revert a. induction x as [|d x IH]; intros a.
  - rewrite append_empty_l. eauto.
  - rewrite append_cons. cbn [JsString.unsnoc].
    destruct (JsString.unsnoc (x +:+ y)) as [[i l]|] eqn:E.
    + intros [= <- <-]. eapply IH. reflexivity.
    + destruct x; [|rewrite append_cons in E; cbn in E;
                    destruct (JsString.unsnoc _) as [[]|]; discriminate].
      rewrite append_empty_l in E. destruct y as [|e y]; [contradiction|].
      cbn in E. destruct (JsString.unsnoc y) as [[]|]; discriminate.
Qed.

Lemma stripPrefix_Some p s r : JsString.stripPrefix p s = Some r -> s = p +:+ r.
Proof.
  revert s. induction p as [|a p IH]; intros s; cbn [JsString.stripPrefix].
  - intros [= ->]. reflexivity.
  - destruct s as [|b s]; [discriminate|].
    destruct (Ascii.eqb_spec a b) as [->|]; [|discriminate].
    intros H. rewrite append_cons. f_equal. apply IH, H.
Qed.

Lemma span_spec f s a b :
  JsString.span f s = (a, b) ->
  s = a +:+ b /\ JsString.forallb f a = true /\
  match b with
  | EmptyString => True
  | String c _ => f c = false
  end.
Proof.
  revert a b. induction s as [|c s IH]; intros a b; cbn [JsString.span].
  - intros [= <- <-]. auto.
  - destruct (f c) eqn:Hc.
    + destruct (JsString.span f s) as [a' b'] eqn:E. intros [= <- <-].
      destruct (IH a' b' eq_refl) as (-> & Ha & Hb).
      cbn [JsString.forallb]. rewrite Hc, Ha. auto.
    + intros [= <- <-]. auto.
Qed.

Lemma span_append f a b :
  JsString.forallb f a = true ->
  match b with
  | EmptyString => True
  | String c _ => f c = false
  end ->
  JsString.span f (a +:+ b) = (a, b).
Proof.
  intros Ha Hb. induction a as [|c a IH].
  - rewrite append_empty_l. destruct b as [|c b]; [reflexivity|].
    cbn [JsString.span]. rewrite Hb. reflexivity.
  - cbn [JsString.forallb] in Ha. apply andb_true_iff in Ha as [Hc Ha].
    rewrite append_cons. cbn [JsString.span]. rewrite Hc, (IH Ha). reflexivity.
Qed.

(** ** The glob compiler *)

(** Escaping and the two replacements leave, for every pattern character,
    exactly the tokens of [globTokens]. *)
Lemma tokens_regexPattern p rest ts :
  RegExp.tokens rest = Some ts ->
  RegExp.tokens (regexPattern p +:+ rest) = Some (globTokenList p ++ ts).
Proof.
  intros Hrest. unfold regexPattern.
  induction p as [|c p IH]; [exact Hrest|].
  each_character c;
    cbn [escapeMeta isEscapedMeta existsb Ascii.eqb Bool.eqb orb
         JsString.replaceAll globTokenList globTokens app];
    expose_prefix;
    cbn [JsString.replaceAll Ascii.eqb Bool.eqb]; expose_prefix;
    cbn [RegExp.tokens RegExp.isSyntaxCharacter existsb Ascii.eqb Bool.eqb orb];
    rewrite IH; reflexivity.
Qed.

Lemma globTokenList_head p :
  head (globTokenList p ++ [RegExp.TDollar]) <> Some RegExp.TStar.
Proof.
  destruct p as [|c p]; [discriminate|].
  cbn [globTokenList]. unfold globTokens.
  destruct (Ascii.eqb c "*"); [discriminate|].
  destruct (Ascii.eqb c "?"); discriminate.
Qed.

Lemma terms_unstarred a ts :
  head ts <> Some RegExp.TStar ->
  RegExp.terms (RegExp.TAtom a :: ts) = cons (a, false) <$> RegExp.terms ts.
Proof.
  destruct ts as [|[] ts]; intros H; try reflexivity. contradiction H; reflexivity.
Qed.

Lemma terms_globTokenList p :
  RegExp.terms (globTokenList p ++ [RegExp.TDollar]) = Some (globTerms p).
Proof.
  induction p as [|c p IH]; [reflexivity|].
  cbn [globTokenList globTerms]. unfold globTokens, globTerm.
  destruct (Ascii.eqb c "*").
  - cbn [app RegExp.terms]. rewrite IH. reflexivity.
  - destruct (Ascii.eqb c "?"); cbn [app];
      rewrite terms_unstarred by apply globTokenList_head;
      rewrite IH; reflexivity.
Qed.

(** The constructor accepts every source the glob compiler builds. *)
Lemma create_globSource p :
  RegExp.create (globSource p) = Some (globTerms p).
Proof.
  unfold RegExp.create, globSource. expose_prefix.
  cbn [RegExp.tokens].
  rewrite (tokens_regexPattern p "$" [RegExp.TDollar]) by reflexivity.
  cbn. apply terms_globTokenList.
Qed.

Lemma globTest_terms p s : globTest p s = RegExp.matchTerms (globTerms p) s.
Proof. unfold globTest. rewrite create_globSource. reflexivity. Qed.

Lemma matchTerms_starred a re s :
  RegExp.matchTerms ((a, true) :: re) s =
  RegExp.matchTerms re s ||
  match s with
  | String c r => RegExp.atomMatches a c && RegExp.matchTerms ((a, true) :: re) r
  | EmptyString => false
  end.
Proof. destruct s; reflexivity. Qed.

Lemma globTerms_match_sound p s :
  RegExp.matchTerms (globTerms p) s = true -> GlobMatch notLineTerminator p s.
Proof.
  revert s. induction p as [|c p IH]; intros s.
  - destruct s; [constructor | discriminate].
  - cbn [globTerms]. unfold globTerm.
    destruct (Ascii.eqb_spec c "*") as [->|Hstar].
    + induction s as [|d s IHs]; rewrite matchTerms_starred.
      * rewrite orb_false_r. intros H. apply glob_many_stop, IH, H.
      * intros [H|H]%orb_true_iff.
        { apply glob_many_stop, IH, H. }
        apply andb_true_iff in H as [Hd H].
        apply glob_many_step; [exact Hd | apply IHs, H].
    + destruct (Ascii.eqb_spec c "?") as [->|Hone].
      * destruct s as [|d s]; [discriminate|]. cbn [RegExp.matchTerms].
        intros [Hd H]%andb_true_iff. apply glob_one; [exact Hd | apply IH, H].
      * destruct s as [|d s]; [discriminate|]. cbn [RegExp.matchTerms RegExp.atomMatches].
        intros [Hd H]%andb_true_iff. apply Ascii.eqb_eq in Hd as <-.
        apply glob_literal; auto.
Qed.

Lemma globTerms_match_complete p s :
  GlobMatch notLineTerminator p s -> RegExp.matchTerms (globTerms p) s = true.
Proof.
  induction 1 as [|c p s Hstar Hone _ IH|c p s Hc _ IH|p s _ IH|c p s Hc _ IH].
  - reflexivity.
  - cbn [globTerms]. unfold globTerm.
    destruct (Ascii.eqb_spec c "*"); [contradiction|].
    destruct (Ascii.eqb_spec c "?"); [contradiction|].
    cbn [RegExp.matchTerms RegExp.atomMatches]. rewrite Ascii.eqb_refl. exact IH.
  - cbn [globTerms globTerm RegExp.matchTerms RegExp.atomMatches] in *.
    cbn. unfold notLineTerminator in Hc. rewrite Hc. exact IH.
  - change (globTerms (String "*" p)) with ((RegExp.Dot, true) :: globTerms p).
    rewrite matchTerms_starred, IH. reflexivity.
  - change (globTerms (String "*" p)) with ((RegExp.Dot, true) :: globTerms p) in *.
    rewrite matchTerms_starred. cbn [RegExp.atomMatches].
    unfold notLineTerminator in Hc. rewrite Hc, IH. apply orb_true_r.
Qed.

(** What the compiled glob decides: an anchored glob match in which the
    wildcards do not cross a line terminator. *)
Lemma globTest_spec p s :
  globTest p s = true <-> GlobMatch notLineTerminator p s.
Proof.
  rewrite globTest_terms.
  split; [apply globTerms_match_sound | apply globTerms_match_complete].
Qed.

(** Away from line terminators the two readings of a wildcard agree. *)
Lemma GlobMatch_lineFree p s :
  JsString.lineFree s = true ->
  GlobMatch anyCharacter p s -> GlobMatch notLineTerminator p s.
Proof.
  intros Hs H. induction H as [|c p s ? ? _ IH|c p s _ _ IH|p s _ IH|c p s _ _ IH].
  - constructor.
  - apply andb_true_iff in Hs as [_ Hs]. apply glob_literal; auto.
  - apply andb_true_iff in Hs as [Hc Hs]. apply glob_one; auto.
  - apply glob_many_stop; auto.
  - apply andb_true_iff in Hs as [Hc Hs]. apply glob_many_step; auto.
Qed.

Lemma GlobMatch_anyCharacter p s :
  GlobMatch notLineTerminator p s -> GlobMatch anyCharacter p s.
Proof.
  induction 1; [constructor | apply glob_literal | apply glob_one
               | apply glob_many_stop | apply glob_many_step]; auto.
Qed.

(** ** The pattern matcher *)

Lemma commandGroup_snoc a :
  commandGroup (a +:+ ")") =
  match a with
  | EmptyString => None
  | _ => if JsString.lineFree a then Some a else None
  end.
Proof. unfold commandGroup. rewrite unsnoc_snoc. destruct a; reflexivity. Qed.

Lemma commandGroup_Some rest a :
  commandGroup rest = Some a ->
  rest = a +:+ ")" /\ a <> EmptyString /\ JsString.lineFree a = true.
Proof.
  unfold commandGroup.
  destruct (JsString.unsnoc rest) as [[[|c body] l]|] eqn:E; try discriminate.
  destruct (Ascii.eqb_spec l ")") as [->|Hl].
  - destruct (JsString.lineFree (String c body)) eqn:Hfree; [|discriminate].
    intros [= <-]. apply unsnoc_Some in E. auto.
  - revert Hl. clear. each_character l; intros Hl; try discriminate.
    contradiction Hl; reflexivity.
Qed.

(** What the terminal-command regular expression accepts and captures: the
    special shape with a non-empty argument pattern free of line
    terminators. *)
Lemma commandMatch_spec pattern a :
  commandMatch pattern = Some a <->
  terminalShape pattern a /\ a <> EmptyString /\ JsString.lineFree a = true.
Proof.
  unfold commandMatch, terminalShape. split.
  - destruct (JsString.stripPrefix "run_terminal_command(" pattern) as [rest|] eqn:E1.
    + intros (-> & Hne & Hfree)%commandGroup_Some. apply stripPrefix_Some in E1 as ->.
      split; [|auto]. exists "run_terminal_command". split; [auto|]. reflexivity.
    + destruct (JsString.stripPrefix "runTerminalCommand(" pattern) as [rest|] eqn:E2;
        [|discriminate].
      intros (-> & Hne & Hfree)%commandGroup_Some. apply stripPrefix_Some in E2 as ->.
      split; [|auto]. exists "runTerminalCommand". split; [auto|]. reflexivity.
  - intros ((t & [-> | ->] & ->) & Hne & Hfree); expose_prefix;
      cbn [JsString.stripPrefix Ascii.eqb Bool.eqb];
      rewrite commandGroup_snoc, Hfree; destruct a; congruence.
Qed.

Section Matcher.
Context {host : JsHost}.

Lemma isTerminalTool_true toolName :
  isTerminalTool toolName = true <->
  toolName = "run_terminal_command" \/ toolName = "runTerminalCommand".
Proof. unfold isTerminalTool. rewrite orb_true_iff, !String.eqb_eq. tauto. Qed.

Lemma isTerminalTool_false toolName :
  toolName <> "run_terminal_command" -> toolName <> "runTerminalCommand" ->
  isTerminalTool toolName = false.
Proof.
  intros H1 H2. apply not_true_is_false. rewrite isTerminalTool_true. tauto.
Qed.

Lemma terminalShape_not_star pattern a :
  terminalShape pattern a -> String.eqb pattern "*" = false.
Proof. intros (t & [-> | ->] & ->); reflexivity. Qed.

(** The wildcard branch, reached by every pattern the three earlier tests
    let through. *)
Lemma matchesToolPattern_wildcard toolName pattern args :
  pattern <> "*" -> pattern <> toolName -> commandMatch pattern = None ->
  matchesToolPattern toolName pattern args =
  hasWildcard pattern && globTest pattern toolName.
Proof.
  intros H1%String.eqb_neq H2%String.eqb_neq H3.
  unfold matchesToolPattern. rewrite H1, H2, H3.
  destruct (hasWildcard pattern); reflexivity.
Qed.

(** C1, amended.  For a tool name that is neither [run_terminal_command]
    nor [runTerminalCommand] and is not the pattern string itself, and for
    every argument map, [matchesToolPattern] returns false on a pattern of
    the special shape [<terminalToolName>(<argPattern>)] whose argument
    pattern is free of line terminators.  (A pattern equal to the tool name
    is an exact-name match, decided before the shape is looked at.) *)
Theorem terminal_shape_never_matches_other_tool toolName pattern argPattern args :
  toolName <> "run_terminal_command" -> toolName <> "runTerminalCommand" ->
  terminalShape pattern argPattern ->
  JsString.lineFree argPattern = true ->
  pattern <> toolName ->
  matchesToolPattern toolName pattern args = false.
Proof.
  intros H1 H2 Hshape Hfree Hname%String.eqb_neq.
  unfold matchesToolPattern.
  rewrite (terminalShape_not_star _ _ Hshape), Hname.
  destruct argPattern as [|c a].
  - destruct Hshape as (t & [-> | ->] & ->); reflexivity.
  - rewrite (proj2 (commandMatch_spec pattern (String c a))) by (split; [|split]; auto; discriminate).
    rewrite isTerminalTool_false by assumption. reflexivity.
Qed.

Lemma commandMissing_falsy args :
  commandMissing args -> truthy (commandOf (Some args)) = false.
Proof.
  unfold commandOf, getProperty. intros [-> | [-> | ->]]; reflexivity.
Qed.

(** A glob that starts with the literal text [run_terminal_command(]
    rejects both names of the terminal tool. *)
Lemma terminal_glob_rejects_terminal_names toolName rest :
  isTerminalTool toolName = true ->
  globTest ("run_terminal_command(" +:+ rest) toolName = false.
Proof.
  intros [-> | ->]%isTerminalTool_true; rewrite globTest_terms; expose_prefix; reflexivity.
Qed.

(** C10, amended.  When the key [command] is absent, null or the empty
    string, [matchesToolPattern] returns false on the pattern
    [run_terminal_command(p)]: for the terminal tool and every [p], the
    star included; and for every other tool name that is not the pattern
    string itself, provided [p] is free of line terminators. *)
Theorem terminal_shape_needs_command toolName p args :
  commandMissing args ->
  isTerminalTool toolName = true \/
  (toolName <> "run_terminal_command(" +:+ p +:+ ")" /\ JsString.lineFree p = true) ->
  matchesToolPattern toolName ("run_terminal_command(" +:+ p +:+ ")") (Some args) = false.
Proof.
  intros Hmissing%commandMissing_falsy Hname.
  unfold matchesToolPattern.
  assert (String.eqb ("run_terminal_command(" +:+ p +:+ ")") toolName = false) as ->.
  { destruct Hname as [[-> | ->]%isTerminalTool_true | [Hne _]].
    - expose_prefix. reflexivity.
    - expose_prefix. reflexivity.
    - apply String.eqb_neq. congruence. }
  assert (commandMatch ("run_terminal_command(" +:+ p +:+ ")") = commandGroup (p +:+ ")")) as ->.
  { unfold commandMatch. expose_prefix. reflexivity. }
  replace (String.eqb ("run_terminal_command(" +:+ p +:+ ")") "*") with false
    by (expose_prefix; reflexivity).
  rewrite commandGroup_snoc.
  destruct p as [|c p'] eqn:Ep.
  - destruct Hname as [Ht | _]; [|reflexivity].
    destruct (hasWildcard _); [|reflexivity].
    apply (terminal_glob_rejects_terminal_names _ _ Ht).
  - rewrite <- Ep in *. destruct (JsString.lineFree p) eqn:Hfree.
    + rewrite Ep. rewrite Hmissing, andb_false_r. reflexivity.
    + rewrite Ep. destruct Hname as [Ht | [_ Hc]]; [|congruence].
      destruct (hasWildcard _); [|reflexivity].
      rewrite <- Ep. apply (terminal_glob_rejects_terminal_names _ _ Ht).
Qed.

(** C8, amended.  For a pattern that is not the lone star, not equal to the
    name and not of the terminal special shape: when it contains a star or
    a question mark, [matchesToolPattern] returns true exactly when the
    whole name matches the pattern as a glob in which a star stands for
    zero or more characters other than line terminators, a question mark
    for exactly one character other than a line terminator, and every other
    character for itself (for a name free of line terminators this is the
    plain reading of star and question mark); otherwise it returns
    false. *)
Theorem wildcard_pattern_is_anchored_glob toolName pattern args :
  pattern <> "*" -> pattern <> toolName ->
  (forall argPattern, ~ terminalShape pattern argPattern) ->
  if hasWildcard pattern
  then (matchesToolPattern toolName pattern args = true <->
        GlobMatch notLineTerminator pattern toolName) /\
       (JsString.lineFree toolName = true ->
        (matchesToolPattern toolName pattern args = true <->
         GlobMatch anyCharacter pattern toolName))
  else matchesToolPattern toolName pattern args = false.
Proof.
  intros H1 H2 Hshape.
  assert (commandMatch pattern = None) as H3.
  { destruct (commandMatch pattern) as [a|] eqn:E; [|reflexivity].
    apply commandMatch_spec in E as [E _]. destruct (Hshape a E). }
  rewrite (matchesToolPattern_wildcard _ _ _ H1 H2 H3).
  destruct (hasWildcard pattern); [|reflexivity].
  cbn [andb]. split; [apply globTest_spec|].
  intros Hfree. rewrite globTest_spec.
  split; [apply GlobMatch_anyCharacter | apply GlobMatch_lineFree, Hfree].
Qed.

End Matcher.

(** The three wildcard examples of the specification. *)
Example wildcard_examples :
  matchesToolPattern "mcp__server1" "mcp__*" None = true /\
  matchesToolPattern "read_file" "read_*" None = true /\
  matchesToolPattern "write_file" "read_*" None = false.
Proof. repeat split; reflexivity. Qed.

(** The terminal-argument examples of the specification. *)
Example terminal_examples :
  matchesToolPattern "run_terminal_command" "run_terminal_command(git*)"
    (Some {[ "command" := JsString "git status" ]}) = true /\
  matchesToolPattern "run_terminal_command" "run_terminal_command(git*)"
    (Some {[ "command" := JsString "npm install" ]}) = false /\
  matchesToolPattern "run_terminal_command" "run_terminal_command(npm install)"
    (Some {[ "command" := JsString "npm install" ]}) = true /\
  matchesToolPattern "read_file" "run_terminal_command(ls*)"
    (Some {[ "command" := JsString "ls" ]}) = false.
Proof. repeat split; vm_compute; reflexivity. Qed.

(** ** Argument matching *)

Section Arguments.
Context {host : JsHost}.


Lemma toString_nullish args key :
  toString (nullish (getProperty args key) (JsString "")) = argumentText args key.
Proof. unfold argumentText. destruct (getProperty args key); reflexivity. Qed.



End Arguments.

(** The argument examples of the test suite. *)
Example matchesArguments_examples :
  matchesArguments {[ "path" := JsString "/tmp" ]} (Some {[ "path" := JsString "/tmp" ]}) = true /\
  matchesArguments {[ "path" := JsString "/tmp" ]} (Some {[ "path" := JsString "/home" ]}) = false /\
  matchesArguments {[ "path" := JsString "/tmp/file.txt" ]} (Some {[ "path" := JsString "*.txt" ]}) = true /\
  matchesArguments {[ "path" := JsString "/tmp/file.txt" ]} (Some {[ "path" := JsString "*.js" ]}) = false /\
  matchesArguments ∅ (Some {[ "path" := JsString "*" ]}) = true.
Proof. repeat split; vm_compute; reflexivity. Qed.

(** ** The policy evaluator *)

Section Evaluator.
Context {host : JsHost}.

Lemma scanPolicies_find toolName args ps :
  scanPolicies toolName args ps =
  match List.find (policyApplies toolName args) ps with
  | Some policy => (permission policy, Some policy)
  | None => (allow, None)
  end.
Proof.
  induction ps as [|p ps IH]; [reflexivity|]. cbn [scanPolicies List.find].
  destruct (policyApplies toolName args p); [reflexivity | exact IH].
Qed.

Lemma scanPolicies_base toolName args ps :
  fst (scanPolicies toolName args ps) = staticBase toolName args ps.
Proof.
  rewrite scanPolicies_find. unfold staticBase.
  destruct (List.find _ ps); reflexivity.
Qed.

Lemma scanPolicies_first toolName args before policy after :
  Forall (fun p => policyApplies toolName args p = false) before ->
  policyApplies toolName args policy = true ->
  scanPolicies toolName args (before ++ policy :: after) = (permission policy, Some policy).
Proof.
  intros Hbefore Hpolicy. induction Hbefore as [|p before Hp _ IH]; cbn [app scanPolicies].
  - rewrite Hpolicy. reflexivity.
  - rewrite Hp. exact IH.
Qed.

Lemma scanPolicies_none toolName args ps :
  Forall (fun p => policyApplies toolName args p = false) ps ->
  scanPolicies toolName args ps = (allow, None).
Proof.
  induction 1 as [|p ps Hp _ IH]; cbn [scanPolicies]; [reflexivity|].
  rewrite Hp. exact IH.
Qed.

Lemma mostRestrictive_le p q :
  restrictiveness p <= restrictiveness (mostRestrictive p q).
Proof. destruct p, q; cbn; lia. Qed.

(** C2.  When the tool has a dynamic evaluator, the permission returned by
    [checkToolPermission] is the more restrictive of the static base
    permission (first matching rule, allow when none matches) and the
    dynamic result, under exclude > ask > allow.  So it is never less
    restrictive than the static base: static allow with dynamic disabled
    gives exclude, static ask with dynamic allowedWithoutPermission gives
    ask. *)
Theorem dynamic_evaluation_only_tightens
    toolName args perms processedArgs t evaluate :
  evaluateToolCallPolicy t = Some evaluate ->
  let base := staticBase toolName args (policies perms) in
  let dynamic := evaluate (permissionPolicyToToolPolicy base) args processedArgs in
  let final :=
    resultPermission (checkToolPermission toolName args perms processedArgs (Some t)) in
  final = mostRestrictive base (toolPolicyToPermissionPolicy dynamic) /\
  restrictiveness base <= restrictiveness final /\
  (base = allow -> dynamic = disabled -> final = exclude) /\
  (base = ask -> dynamic = allowedWithoutPermission -> final = ask).
Proof.
  intros Hev base dynamic final.
  assert (final = mostRestrictive base (toolPolicyToPermissionPolicy dynamic)) as Hfinal.
  { subst final dynamic base. unfold checkToolPermission.
    rewrite <- scanPolicies_base.
    destruct (scanPolicies toolName args (policies perms)) as [b m].
    cbn [dynamicEvaluator mbind option_bind fst]. rewrite Hev. cbn [fst].
    destruct b, (toolPolicyToPermissionPolicy _); reflexivity. }
  rewrite Hfinal. split; [reflexivity|]. split; [apply mostRestrictive_le|].
  split; intros -> ->; reflexivity.
Qed.

(** C3.  Without a dynamic evaluator, [checkToolPermission] returns the
    permission of the first rule in list order whose tool pattern and
    argument patterns both match, and that rule as [matchedPolicy]; when
    no rule matches it returns allow with no [matchedPolicy], in
    particular for an empty policy list. *)
Theorem static_first_match_wins toolName args perms processedArgs t :
  dynamicEvaluator t = None ->
  (forall before policy after,
     policies perms = before ++ policy :: after ->
     Forall (fun p => policyApplies toolName args p = false) before ->
     policyApplies toolName args policy = true ->
     checkToolPermission toolName args perms processedArgs t =
     {| resultPermission := permission policy; matchedPolicy := Some policy |}) /\
  (Forall (fun p => policyApplies toolName args p = false) (policies perms) ->
   checkToolPermission toolName args perms processedArgs t =
   {| resultPermission := allow; matchedPolicy := None |}) /\
  (policies perms = [] ->
   checkToolPermission toolName args perms processedArgs t =
   {| resultPermission := allow; matchedPolicy := None |}).
Proof.
  intros Hdyn. unfold checkToolPermission. rewrite Hdyn. repeat split.
  - intros before policy after -> Hbefore Hpolicy.
    rewrite scanPolicies_first by assumption. reflexivity.
  - intros Hnone. rewrite scanPolicies_none by assumption. reflexivity.
  - intros ->. reflexivity.
Qed.

(** ** The batch filter *)

(** C6.  [filterExcludedTools] returns a subsequence of its input (order
    kept, nothing added or repeated) made of exactly the tools whose
    evaluation with empty arguments, no processed arguments and the tool
    itself as dynamic evaluator is not exclude; its length is the input
    length minus the number of tools evaluated to exclude. *)
Theorem filterExcludedTools_subsequence tools perms :
  sublist (filterExcludedTools tools perms) tools /\
  (forall t, t ∈ filterExcludedTools tools perms <-> t ∈ tools /\ kept perms t) /\
  length (filterExcludedTools tools perms) = length tools - countExcluded tools perms /\
  countExcluded tools perms <= length tools.
Proof.
  unfold filterExcludedTools, kept.
  induction tools as [|t tools (IHsub & IHin & IHlen & IHle)].
  - split; [constructor|]. split; [|split; [reflexivity | cbn; lia]].
    intros u. cbn [List.filter]. rewrite elem_of_nil. tauto.
  - cbn [List.filter countExcluded length].
    destruct (resultPermission (checkToolPermission (functionName t) ∅ perms None (Some t)))
      eqn:E.
    1, 2: split; [apply sublist_skip, IHsub|];
          split; [|cbn [length]; lia];
          intros u; rewrite !elem_of_cons, IHin; split;
          [ intros [-> | [? ?]]; [split; [auto | congruence] | auto]
          | intros [[-> | ?] ?]; auto ].
    split; [apply sublist_cons, IHsub|].
    split; [|lia].
    intros u; rewrite elem_of_cons, IHin; split;
      [ intros [? ?]; auto
      | intros [[-> | ?] ?]; [congruence | auto] ].
Qed.

End Evaluator.

(** The filter examples of the test suite. *)
Example filterExcludedTools_examples :
  filterExcludedTools
    [plainTool "read_file"; plainTool "grep_search"; plainTool "create_new_file"]
    {| policies := [excludeGrep; allowAll] |}
  = [plainTool "read_file"; plainTool "create_new_file"] /\
  functionName <$>
    filterExcludedTools
      [constantTool "read_file" allowedWithoutPermission;
       constantTool "run_terminal_command" disabled]
      {| policies := [allowAll] |}
  = ["read_file"].
Proof. split; reflexivity. Qed.

(** ** The loader *)

(** Which strings the regular expression of [parseToolPattern] accepts, and
    what it captures. *)
Lemma toolPatternMatch_spec pattern name args :
  toolPatternMatch pattern = Some (name, args) <->
  name <> EmptyString /\ JsString.excludes "(" name = true /\
  match args with
  | None => pattern = name
  | Some a => JsString.excludes ")" a = true /\ pattern = name +:+ String "(" (a +:+ ")")
  end.
Proof.
  unfold toolPatternMatch, JsString.excludes. split.
  - destruct (JsString.span _ pattern) as [n rest] eqn:E.
    apply span_spec in E as (-> & Hn & Hrest).
    destruct n as [|c n]; [discriminate|].
    destruct rest as [|d inner].
    + intros [= <- <-]. rewrite append_empty_r. auto.
    + destruct (JsString.unsnoc inner) as [[a l]|] eqn:Hl; [|discriminate].
      destruct (Ascii.eqb_spec l ")") as [->|Hne].
      * destruct (JsString.forallb _ a) eqn:Ha; [|discriminate].
        intros [= <- <-]. apply unsnoc_Some in Hl as ->.
        apply negb_false_iff, Ascii.eqb_eq in Hrest as ->. auto.
      * revert Hne. clear. each_character l; intros Hne; try discriminate.
        contradiction Hne; reflexivity.
  - intros (Hne & Hn & Hargs). destruct args as [a|].
    + destruct Hargs as [Ha ->]. rewrite span_append by (auto; reflexivity).
      destruct name; [contradiction|]. rewrite unsnoc_snoc, Ha. reflexivity.
    + subst pattern. rewrite <- (append_empty_r name) at 1.
      rewrite span_append by auto. destruct name; [contradiction | reflexivity].
Qed.

(** Scanning for the first opening parenthesis stops at one. *)
Lemma span_open_parenthesis before after :
  exists name skipped,
    JsString.span (fun c => negb (Ascii.eqb c "(")) (before +:+ String "(" after)
    = (name, skipped +:+ String "(" after) /\
    (skipped = EmptyString \/ exists rest, skipped = String "(" rest).
Proof.
  induction before as [|c before (name & skipped & IH & Hskipped)].
  - exists EmptyString, EmptyString. split; [reflexivity | auto].
  - rewrite append_cons. cbn [JsString.span].
    destruct (Ascii.eqb_spec c "(") as [->|Hc]; cbn [negb].
    + exists EmptyString, (String "(" before). split; [reflexivity | eauto].
    + rewrite IH. exists (String c name), skipped. auto.
Qed.

Lemma unclosed_last_character after inner a c :
  JsString.includes ")" after = false ->
  (exists skipped, String "(" inner = skipped +:+ String "(" after) ->
  JsString.unsnoc inner = Some (a, c) -> c <> ")"%char.
Proof.
  intros Hafter [skipped E] Hlast ->.
  assert (exists b, JsString.unsnoc (String "(" inner) = Some (b, ")"%char)) as [b Hb].
  { cbn [JsString.unsnoc]. rewrite Hlast. eauto. }
  rewrite E in Hb. apply unsnoc_append in Hb as [b' Hb']; [|discriminate].
  apply unsnoc_last in Hb'. cbn [JsString.includes Ascii.eqb Bool.eqb orb] in Hb'.
  congruence.
Qed.

Lemma toolPatternMatch_unclosed pattern :
  unclosedParenthesis pattern -> toolPatternMatch pattern = None.
Proof.
  intros (before & after & -> & Hafter). unfold toolPatternMatch.
  destruct (span_open_parenthesis before after) as (name & skipped & -> & Hskipped).
  destruct name as [|n name]; [reflexivity|].
  assert (exists inner, skipped +:+ String "(" after = String "(" inner) as [inner E].
  { destruct Hskipped as [-> | [rest ->]]; rewrite ?append_cons; eauto. }
  rewrite E. destruct (JsString.unsnoc inner) as [[args l]|] eqn:Hlast; [|reflexivity].
  assert (l <> ")"%char) as Hl.
  { eapply unclosed_last_character; eauto. }
  revert Hl. clear. each_character l; intros Hl; try reflexivity.
  contradiction Hl; reflexivity.
Qed.

Section LoaderTheorems.
Context {host : JsHost}.

(** [parseToolPattern] throws exactly on the strings its regular
    expression rejects. *)
Lemma parseToolPattern_throws pattern perm :
  (exists message, parseToolPattern pattern perm = Throw message) <->
  toolPatternMatch pattern = None.
Proof.
  unfold parseToolPattern. destruct (toolPatternMatch pattern) as [[name args]|].
  - split; [intros [m H]; discriminate | discriminate].
  - split; eauto.
Qed.

(** C5, amended.  For every pattern string with an opening parenthesis
    that no closing parenthesis follows, [parseToolPattern] throws to its
    caller instead of returning a policy.  (Other unbalanced strings can be
    accepted: a closing parenthesis before any opening one belongs to the
    tool name, and an opening parenthesis inside the argument part belongs
    to the argument.) *)
Theorem parseToolPattern_unclosed_parenthesis pattern perm :
  unclosedParenthesis pattern ->
  parseToolPattern pattern perm = Throw ("Invalid tool pattern: " +:+ pattern).
Proof.
  intros H. unfold parseToolPattern. rewrite (toolPatternMatch_unclosed _ H). reflexivity.
Qed.

Lemma pushPatterns_Ok acc patterns perm parsed :
  Forall2 (fun pattern policy => parseToolPattern pattern perm = Ok policy) patterns parsed ->
  pushPatterns acc patterns perm = Ok (acc ++ parsed).
Proof.
  intros H. revert acc. induction H as [|pattern policy patterns parsed Hp _ IH]; intros acc.
  - rewrite app_nil_r. reflexivity.
  - cbn [pushPatterns]. rewrite Hp. cbn. rewrite IH, <- app_assoc. reflexivity.
Qed.

(** The categories are laid out exclude, ask, allow, each in list order. *)
Lemma yamlConfigToPolicies_order ex ak al pex pak pal :
  Forall2 (fun pattern policy => parseToolPattern pattern exclude = Ok policy) ex pex ->
  Forall2 (fun pattern policy => parseToolPattern pattern ask = Ok policy) ak pak ->
  Forall2 (fun pattern policy => parseToolPattern pattern allow = Ok policy) al pal ->
  yamlConfigToPolicies {| yamlAllow := Some al; yamlAsk := Some ak; yamlExclude := Some ex |}
  = Ok (pex ++ pak ++ pal).
Proof.
  intros Hex Hak Hal. unfold yamlConfigToPolicies, pushCategory. cbn.
  rewrite (pushPatterns_Ok [] ex exclude pex Hex). cbn.
  rewrite (pushPatterns_Ok pex ak ask pak Hak). cbn.
  rewrite (pushPatterns_Ok _ al allow pal Hal), <- app_assoc. reflexivity.
Qed.

(** C4.  Normalising the end-to-end configuration gives three policies in
    the order exclude rule, ask rule, allow rule, the argument literal of
    the first one stored under the key [command]; against that list the
    three calls of the specification evaluate to exclude, ask and allow. *)
Theorem end_to_end_config :
  yamlConfigToPolicies endToEndConfig = Ok endToEndPolicies /\
  length endToEndPolicies = 3 /\
  resultPermission
    (checkToolPermission "run_terminal_command"
       {[ "command" := JsString "sudo rm -rf /" ]}
       {| policies := endToEndPolicies |} None None) = exclude /\
  resultPermission
    (checkToolPermission "run_terminal_command"
       {[ "command" := JsString "ls" ]}
       {| policies := endToEndPolicies |} None None) = ask /\
  resultPermission
    (checkToolPermission "read_file" ∅
       {| policies := endToEndPolicies |} None None) = allow.
Proof. repeat split; vm_compute; reflexivity. Qed.

(** ** The service *)

(** C9.  While the service is disabled ([isEnabled] is false: the enabled
    flag is off or no permissions are loaded), [checkPermission] returns
    allow with no [matchedPolicy], whatever the tool, its evaluator and the
    arguments are. *)
Theorem disabled_service_allows (this : ToolPermissionsService) t args processedArgs :
  isEnabled this = false ->
  checkPermission this t args processedArgs =
  {| resultPermission := allow; matchedPolicy := None |}.
Proof.
  unfold isEnabled, checkPermission.
  destruct (enabled this); [|reflexivity].
  destruct (permissions this); [|reflexivity].
  discriminate.
Qed.

(** A reload whose normalisation throws leaves the service without
    permissions. *)
Lemma reload_rejects_throw config message this :
  yamlConfigToPolicies config = Throw message ->
  isEnabled (reload (Some config) this) = false.
Proof.
  intros H. unfold isEnabled, reload. cbn. rewrite H. apply andb_false_r.
Qed.

End LoaderTheorems.

(** The parser examples of the test suite. *)
Example parseToolPattern_examples :
  parseToolPattern "run_terminal_command" allow =
    Ok {| tool := "run_terminal_command"; permission := allow; argumentMatches := None |} /\
  parseToolPattern "run_terminal_command(npm install)" ask =
    Ok {| tool := "run_terminal_command"; permission := ask;
          argumentMatches := Some {[ "command" := JsString "npm install" ]} |} /\
  parseToolPattern "read_file(/tmp/*)" allow =
    Ok {| tool := "read_file"; permission := allow;
          argumentMatches := Some {[ "file_path" := JsString "/tmp/*" ]} |} /\
  parseToolPattern "run_terminal_command()" allow =
    Ok {| tool := "run_terminal_command"; permission := allow; argumentMatches := None |} /\
  parseToolPattern "invalid((pattern" allow =
    Throw "Invalid tool pattern: invalid((pattern".
Proof. repeat split; vm_compute; reflexivity. Qed.

(** Names of members of [Object.prototype] are found by both property
    reads: without any argument the key [constructor] reads the inherited
    function, and the tool name [toString] finds the inherited function in
    the table of argument keys. *)
Example inherited_members_are_read :
  matchesArguments ∅ (Some {[ "constructor" := JsString "function*" ]}) = true /\
  matchesArguments ∅ (Some {[ "command" := JsString "function*" ]}) = false /\
  parseToolPattern "toString(x)" allow =
    Ok {| tool := "toString"; permission := allow;
          argumentMatches :=
            Some {[ "function toString() { [native code] }" := JsString "x" ]} |} /\
  parseToolPattern "my_tool(x)" allow =
    Ok {| tool := "my_tool"; permission := allow;
          argumentMatches := Some {[ "pattern" := JsString "x" ]} |}.
Proof. repeat split; vm_compute; reflexivity. Qed.

(** ** Instances and counterexamples *)

(** The terminal pattern of the test suite against [read_file]. *)
Lemma terminal_shape_never_matches_other_tool_witness :
  "read_file" <> "run_terminal_command" /\
  "read_file" <> "runTerminalCommand" /\
  terminalShape "run_terminal_command(ls*)" "ls*" /\
  JsString.lineFree "ls*" = true /\
  "run_terminal_command(ls*)" <> "read_file" /\
  matchesToolPattern "read_file" "run_terminal_command(ls*)"
    (Some {[ "command" := JsString "ls" ]}) = false.
Proof.
  assert (H1 : "read_file" <> "run_terminal_command") by discriminate.
  assert (H2 : "read_file" <> "runTerminalCommand") by discriminate.
  assert (H3 : terminalShape "run_terminal_command(ls*)" "ls*").
  { exists "run_terminal_command". split; [left|]; reflexivity. }
  assert (H4 : JsString.lineFree "ls*" = true) by reflexivity.
  assert (H5 : "run_terminal_command(ls*)" <> "read_file") by discriminate.
  exact (conj H1 (conj H2 (conj H3 (conj H4 (conj H5
    (terminal_shape_never_matches_other_tool
       "read_file" "run_terminal_command(ls*)" "ls*"
       (Some {[ "command" := JsString "ls" ]}) H1 H2 H3 H4 H5)))))).
Defined.

(** C1 as stated fails.  A tool whose name is the pattern string itself is
    not the terminal tool, yet the exact-name test answers true; and when
    the argument pattern holds a line terminator the pattern is handled as
    an ordinary glob over the tool name. *)
Lemma terminal_shape_matches_other_tool :
  ("run_terminal_command(ls)" <> "run_terminal_command" /\
   "run_terminal_command(ls)" <> "runTerminalCommand" /\
   terminalShape "run_terminal_command(ls)" "ls" /\
   matchesToolPattern "run_terminal_command(ls)" "run_terminal_command(ls)" None = true) /\
  (twoLines "run_terminal_command(a" ")" <> "run_terminal_command" /\
   twoLines "run_terminal_command(a" ")" <> "runTerminalCommand" /\
   terminalShape (twoLines "run_terminal_command(*" ")") (twoLines "*" "") /\
   matchesToolPattern (twoLines "run_terminal_command(a" ")")
     (twoLines "run_terminal_command(*" ")") None = true).
Proof.
  split; (split; [discriminate|]); (split; [discriminate|]);
    (split; [exists "run_terminal_command"; split; [left|]; reflexivity | reflexivity]).
Qed.

(** The spec's allow rule tightened by a dynamic [disabled]. *)
Lemma dynamic_evaluation_only_tightens_witness :
  evaluateToolCallPolicy (constantTool "run_terminal_command" disabled)
    = Some (fun _ _ _ => disabled) /\
  resultPermission
    (checkToolPermission "run_terminal_command"
       {[ "command" := JsString "sudo rm -rf /" ]} {| policies := [allowAll] |} None
       (Some (constantTool "run_terminal_command" disabled))) = exclude.
Proof.
  split; [reflexivity|].
  exact (proj1 (proj2 (proj2
    (dynamic_evaluation_only_tightens "run_terminal_command"
       {[ "command" := JsString "sudo rm -rf /" ]} {| policies := [allowAll] |} None
       (constantTool "run_terminal_command" disabled) (fun _ _ _ => disabled) eq_refl)))
    eq_refl eq_refl).
Defined.

(** First match wins on the two-rule list of the specification. *)
Lemma static_first_match_wins_witness :
  dynamicEvaluator None = None /\
  checkToolPermission "run" ∅ {| policies := [askRun; allowAll] |} None None =
    {| resultPermission := ask; matchedPolicy := Some askRun |} /\
  checkToolPermission "read" ∅ {| policies := [askRun; allowAll] |} None None =
    {| resultPermission := allow; matchedPolicy := Some allowAll |}.
Proof.
  split; [reflexivity|]. split.
  - apply (proj1 (static_first_match_wins "run" ∅ {| policies := [askRun; allowAll] |}
                    None None eq_refl) [] askRun [allowAll]).
    + reflexivity.
    + constructor.
    + reflexivity.
  - apply (proj1 (static_first_match_wins "read" ∅ {| policies := [askRun; allowAll] |}
                    None None eq_refl) [askRun] allowAll []).
    + reflexivity.
    + constructor; [reflexivity | constructor].
    + reflexivity.
Defined.

(** The invalid pattern of the test suite. *)
Lemma parseToolPattern_unclosed_parenthesis_witness :
  unclosedParenthesis "invalid((pattern" /\
  parseToolPattern "invalid((pattern" allow =
    Throw "Invalid tool pattern: invalid((pattern".
Proof.
  assert (H : unclosedParenthesis "invalid((pattern").
  { exists "invalid(", "pattern". split; reflexivity. }
  split; [exact H|].
  exact (parseToolPattern_unclosed_parenthesis "invalid((pattern" allow H).
Defined.

(** C5 as stated fails.  Two strings with unbalanced parentheses that are
    parsed into a policy: a closing parenthesis that nothing opened, and an
    opening parenthesis that nothing closes. *)
Lemma parseToolPattern_accepts_unbalanced :
  (balanced "foo)" = false /\
   parseToolPattern "foo)" allow =
     Ok {| tool := "foo)"; permission := allow; argumentMatches := None |}) /\
  (balanced "a(b(c)" = false /\
   parseToolPattern "a(b(c)" allow =
     Ok {| tool := "a"; permission := allow;
           argumentMatches := Some {[ "pattern" := JsString "b(c" ]} |}).
Proof. repeat split; vm_compute; reflexivity. Qed.


(** The wildcard example [read_*] against [read_file]. *)
Lemma wildcard_pattern_is_anchored_glob_witness :
  "read_*" <> "*" /\
  "read_*" <> "read_file" /\
  (forall argPattern, ~ terminalShape "read_*" argPattern) /\
  (matchesToolPattern "read_file" "read_*" None = true <->
   GlobMatch notLineTerminator "read_*" "read_file").
Proof.
  assert (H1 : "read_*" <> "*") by discriminate.
  assert (H2 : "read_*" <> "read_file") by discriminate.
  assert (H3 : forall argPattern, ~ terminalShape "read_*" argPattern).
  { intros a (t & [-> | ->] & E); discriminate E. }
  exact (conj H1 (conj H2 (conj H3
    (proj1 (wildcard_pattern_is_anchored_glob "read_file" "read_*" None H1 H2 H3))))).
Defined.

(** C8 as stated fails.  Read as zero or more characters, the star of
    [read_*] covers a name with a line feed in it; the compiled pattern
    does not match that name. *)
Lemma wildcard_stops_at_line_terminator :
  "read_*" <> "*" /\
  "read_*" <> twoLines "read_" "file" /\
  (forall argPattern, ~ terminalShape "read_*" argPattern) /\
  hasWildcard "read_*" = true /\
  GlobMatch anyCharacter "read_*" (twoLines "read_" "file") /\
  matchesToolPattern (twoLines "read_" "file") "read_*" None = false.
Proof.
  split; [discriminate|]. split; [discriminate|].
  split; [intros a (t & [-> | ->] & E); discriminate E|].
  split; [reflexivity|]. split; [|reflexivity].
  do 5 (apply glob_literal; [discriminate | discriminate |]).
  do 5 (apply glob_many_step; [reflexivity|]).
  apply glob_many_stop, glob_end.
Qed.

(** A disabled service with an exclude rule loaded still allows. *)
Lemma disabled_service_allows_witness :
  isEnabled disabledService = false /\
  checkPermission disabledService (constantTool "grep_search" disabled) ∅ None =
    {| resultPermission := allow; matchedPolicy := None |}.
Proof.
  split; [reflexivity|].
  exact (disabled_service_allows disabledService
           (constantTool "grep_search" disabled) ∅ None eq_refl).
Defined.

(** The terminal tool, the terminal pattern whose argument pattern is the
    lone star, and no command. *)
Lemma terminal_shape_needs_command_witness :
  commandMissing ∅ /\
  isTerminalTool "run_terminal_command" = true /\
  matchesToolPattern "run_terminal_command" ("run_terminal_command(" +:+ "*" +:+ ")")
    (Some ∅) = false.
Proof.
  assert (H1 : commandMissing (∅ : gmap string JsValue)) by (left; reflexivity).
  assert (H2 : isTerminalTool "run_terminal_command" = true) by reflexivity.
  exact (conj H1 (conj H2
    (terminal_shape_needs_command "run_terminal_command" "*" ∅ H1 (or_introl H2)))).
Defined.

(** C10 as stated fails.  No command is carried, yet the pattern matches a
    tool whose name is the pattern string itself; and when [p] holds a line
    terminator the pattern is an ordinary glob over the tool name. *)
Lemma terminal_shape_matches_without_command :
  (commandMissing ∅ /\
   matchesToolPattern "run_terminal_command(*)"
     ("run_terminal_command(" +:+ "*" +:+ ")") (Some ∅) = true) /\
  (commandMissing {[ "command" := JsNull ]} /\
   matchesToolPattern (twoLines "run_terminal_command(a" ")")
     ("run_terminal_command(" +:+ twoLines "*" "" +:+ ")")
     (Some {[ "command" := JsNull ]}) = true).
Proof.
  split; (split; [|reflexivity]).
  - left. reflexivity.
  - right. left. reflexivity.
Qed.

(** * Further properties of the code *)

(** ** Further properties of the glob compiler *)

Lemma matchTerms_any_run s :
  RegExp.matchTerms [(RegExp.Dot, true)] s = JsString.lineFree s.
Proof.
  induction s as [|c s IH]; [reflexivity|].
  rewrite matchTerms_starred, IH. reflexivity.
Qed.

Lemma hasWildcard_cons c p :
  hasWildcard (String c p) = false ->
  c <> "*"%char /\ c <> "?"%char /\ hasWildcard p = false.
Proof.
  unfold hasWildcard. cbn [JsString.includes].
  intros [[H1 H2]%orb_false_iff [H3 H4]%orb_false_iff]%orb_false_iff.
  apply Ascii.eqb_neq in H1, H3. rewrite H2, H4. auto.
Qed.

Lemma globTerm_literal c :
  c <> "*"%char -> c <> "?"%char -> globTerm c = (RegExp.Lit c, false).
Proof.
  intros H1%Ascii.eqb_neq H2%Ascii.eqb_neq. unfold globTerm. rewrite H1, H2. reflexivity.
Qed.

(** A wildcard-free prefix followed by a star. *)
Lemma globTest_prefix p s :
  hasWildcard p = false ->
  globTest (p +:+ "*") s = true <->
  exists rest, s = p +:+ rest /\ JsString.lineFree rest = true.
Proof.
  rewrite globTest_terms. revert s. induction p as [|c p IH]; intros s Hp.
  - rewrite append_empty_l. change (globTerms "*") with [(RegExp.Dot, true)].
    rewrite matchTerms_any_run. split; [eauto|]. intros (rest & -> & H). exact H.
  - apply hasWildcard_cons in Hp as (H1 & H2 & Hp).
    rewrite append_cons. cbn [globTerms]. rewrite globTerm_literal by assumption.
    destruct s as [|d s]; cbn [RegExp.matchTerms RegExp.atomMatches].
    + split; [discriminate|]. intros (rest & E & _). discriminate E.
    + rewrite andb_true_iff, Ascii.eqb_eq, (IH s Hp). split.
      * intros [-> (rest & -> & H)]. eauto.
      * intros (rest & [= -> ->] & H). eauto.
Qed.

(** A glob matches the empty string exactly when it is made of stars. *)
Lemma globTest_empty p :
  globTest p EmptyString = JsString.forallb (Ascii.eqb "*") p.
Proof.
  rewrite globTest_terms. induction p as [|c p IH]; [reflexivity|].
  cbn [globTerms JsString.forallb]. unfold globTerm.
  rewrite (Ascii.eqb_sym "*" c).
  destruct (Ascii.eqb c "*").
  - rewrite matchTerms_starred, IH, orb_false_r. reflexivity.
  - destruct (Ascii.eqb c "?"); reflexivity.
Qed.

Section MoreArguments.
Context {host : JsHost}.

Lemma matchesArguments_singleton args key pattern :
  matchesArguments args (Some {[ key := pattern ]}) =
  argumentMatchesPattern args key pattern.
Proof.
  cbn [matchesArguments]. rewrite map_to_list_singleton. cbn. apply andb_true_r.
Qed.

(** X2.  An argument pattern made of a non-empty text without wildcards
    followed by a star matches exactly when the string form of the
    argument (the empty string when it is missing) starts with that text
    and what follows holds no line terminator. *)
Theorem prefix_pattern_matches_prefix args key prefix :
  prefix <> EmptyString -> hasWildcard prefix = false ->
  matchesArguments args (Some {[ key := JsString (prefix +:+ "*") ]}) = true <->
  exists rest,
    argumentText args key = prefix +:+ rest /\ JsString.lineFree rest = true.
Proof.
  intros Hne Hp. rewrite matchesArguments_singleton. unfold argumentMatchesPattern.
  destruct prefix as [|c p]; [contradiction|].
  assert (strictEquals (JsString (String c p +:+ "*")) (JsString "*") = false) as ->.
  { rewrite append_cons. cbn [strictEquals String.eqb].
    destruct (Ascii.eqb c "*"); [|reflexivity]. destruct p; reflexivity. }
  assert (hasWildcard (String c p +:+ "*") = true) as ->.
  { unfold hasWildcard. rewrite includes_append. cbn. rewrite orb_true_r. reflexivity. }
  rewrite toString_nullish. apply globTest_prefix, Hp.
Qed.

(** X3.  When the argument is missing, that is when the key is absent
    from the arguments and is not the name of a member inherited from
    [Object.prototype], or when its value is null or undefined, a string
    pattern matches exactly when it is not empty and made of stars only:
    every other glob and every literal text reject a missing argument. *)
Theorem missing_argument_matches_only_stars args key p :
  (args !! key = None /\ isObjectPrototypeKey key = false) \/
  args !! key = Some JsNull \/ args !! key = Some JsUndefined ->
  matchesArguments args (Some {[ key := JsString p ]}) = true <->
  p <> EmptyString /\ JsString.forallb (Ascii.eqb "*") p = true.
Proof.
  intros Hmissing. rewrite matchesArguments_singleton. unfold argumentMatchesPattern.
  assert (getProperty args key = JsUndefined \/ getProperty args key = JsNull) as Hread.
  { unfold getProperty. destruct Hmissing as [[-> ->] | [-> | ->]]; auto. }
  assert (argumentText args key = EmptyString) as Htext.
  { unfold argumentText. destruct Hread as [-> | ->]; reflexivity. }
  assert (forall q, strictEquals (getProperty args key) (JsString q) = false) as Hraw.
  { intros q. destruct Hread as [-> | ->]; reflexivity. }
  cbn [strictEquals].
  destruct (String.eqb_spec p "*") as [->|Hstar].
  { split; [|reflexivity]. intros _. split; [discriminate | reflexivity]. }
  destruct (hasWildcard p) eqn:Hw.
  - rewrite toString_nullish, Htext, globTest_empty.
    split; [|tauto]. intros H. split; [|exact H]. intros ->. discriminate Hw.
  - rewrite Hraw. split; [discriminate|]. intros [Hne Hall].
    destruct p as [|c p]; [contradiction|].
    cbn [JsString.forallb] in Hall. apply andb_true_iff in Hall as [Hc _].
    apply Ascii.eqb_eq in Hc as <-. discriminate Hw.
Qed.

(** X4.  An argument whose key no pattern declares never changes the
    result of [matchesArguments]. *)
Theorem undeclared_argument_is_ignored args patterns key value :
  patterns !! key = None ->
  matchesArguments (<[ key := value ]> args) (Some patterns) =
  matchesArguments args (Some patterns).
Proof.
  intros Hkey. cbn [matchesArguments].
  assert (forall l : list (string * JsValue),
             (forall k v, (k, v) ∈ l -> k <> key) ->
             List.forallb (fun '(k, pattern) =>
                             argumentMatchesPattern (<[ key := value ]> args) k pattern) l =
             List.forallb (fun '(k, pattern) => argumentMatchesPattern args k pattern) l)
    as Hlist.
  { induction l as [|[k v] l IH]; intros Hl; [reflexivity|].
    cbn [List.forallb]. rewrite IH by (intros; eapply Hl; right; eauto).
    f_equal. unfold argumentMatchesPattern, getProperty.
    rewrite lookup_insert_ne; [reflexivity|]. apply not_eq_sym, (Hl k v). left. }
  apply Hlist. intros k v Hin%elem_of_map_to_list ->. congruence.
Qed.

End MoreArguments.

Lemma globTerms_length p : length (globTerms p) = String.length p.
Proof. induction p as [|c p IH]; [reflexivity|]. cbn. rewrite IH. reflexivity. Qed.

(** X1.  The regular-expression source built from a glob is accepted by
    the constructor whatever the pattern is: every syntax character of the
    pattern is escaped or translated, and the compiled expression has one
    term for each pattern character. *)
Theorem glob_source_always_compiles pattern :
  exists regex,
    RegExp.create (globSource pattern) = Some regex /\
    length regex = String.length pattern.
Proof.
  exists (globTerms pattern). split; [apply create_globSource | apply globTerms_length].
Qed.

Lemma excludes_includes c s : JsString.excludes c s = negb (JsString.includes c s).
Proof.
  unfold JsString.excludes. induction s as [|d s IH]; [reflexivity|].
  cbn [JsString.forallb JsString.includes]. rewrite IH, negb_orb. reflexivity.
Qed.

Lemma excludes_trimStart c s :
  JsString.excludes c s = true -> JsString.excludes c (JsString.trimStart s) = true.
Proof.
  unfold JsString.excludes. induction s as [|d s IH]; [reflexivity|].
  cbn [JsString.trimStart]. destruct (JsString.isTrimmed d); [|tauto].
  cbn [JsString.forallb]. intros [_ H]%andb_true_iff. apply IH, H.
Qed.

Lemma excludes_trimEnd c s :
  JsString.excludes c s = true -> JsString.excludes c (JsString.trimEnd s) = true.
Proof.
  unfold JsString.excludes. induction s as [|d s IH]; [reflexivity|].
  cbn [JsString.trimEnd JsString.forallb]. intros [Hd H]%andb_true_iff.
  specialize (IH H). destruct (JsString.trimEnd s) as [|e r].
  - destruct (JsString.isTrimmed d); [reflexivity|]. cbn. rewrite Hd. reflexivity.
  - cbn [JsString.forallb] in *. rewrite Hd. exact IH.
Qed.

Lemma excludes_trim c s :
  JsString.excludes c s = true -> JsString.excludes c (JsString.trim s) = true.
Proof. intros H. apply excludes_trimEnd, excludes_trimStart, H. Qed.

Lemma commandMatch_needs_parenthesis pattern :
  JsString.includes "(" pattern = false -> commandMatch pattern = None.
Proof.
  intros H. destruct (commandMatch pattern) as [a|] eqn:E; [|reflexivity].
  apply commandMatch_spec in E as [(t & _ & ->) _].
  rewrite includes_append in H. cbn [JsString.includes Ascii.eqb Bool.eqb] in H.
  rewrite orb_true_r in H. discriminate H.
Qed.

Section MoreMatcher.
Context {host : JsHost}.

Lemma strictEquals_string v s : strictEquals v (JsString s) = true <-> v = JsString s.
Proof.
  destruct v; cbn [strictEquals]; try (split; [discriminate|congruence]).
  rewrite String.eqb_eq. split; congruence.
Qed.

(** X5.  For the terminal tool and a pattern of the terminal shape with a
    non-empty argument pattern free of line terminators,
    [matchesToolPattern] returns true exactly when the command argument is
    truthy and, for an argument pattern with a star or a question mark,
    its string form matches the argument pattern as a glob whose star and
    question mark do not match line terminators; for any other argument
    pattern, the command is that very string. *)
Theorem terminal_pattern_tests_command toolName pattern argPattern args :
  isTerminalTool toolName = true ->
  terminalShape pattern argPattern ->
  argPattern <> EmptyString -> JsString.lineFree argPattern = true ->
  matchesToolPattern toolName pattern args = true <->
  truthy (commandOf args) = true /\
  if hasWildcard argPattern
  then GlobMatch notLineTerminator argPattern (toString (commandOf args))
  else commandOf args = JsString argPattern.
Proof.
  intros Htool Hshape Hne Hfree. unfold matchesToolPattern.
  rewrite (terminalShape_not_star _ _ Hshape).
  assert (String.eqb pattern toolName = false) as ->.
  { destruct Hshape as (t & [-> | ->] & ->);
      apply isTerminalTool_true in Htool as [-> | ->]; expose_prefix; reflexivity. }
  rewrite (proj2 (commandMatch_spec pattern argPattern)) by auto.
  rewrite Htool. cbn [andb].
  destruct (truthy (commandOf args)).
  - destruct (hasWildcard argPattern).
    + rewrite globTest_spec. tauto.
    + rewrite strictEquals_string. tauto.
  - split; [discriminate | intros [? _]; discriminate].
Qed.

(** X6.  The tool name of a rule made by [parseToolPattern] holds no
    opening parenthesis, so [matchesToolPattern] never takes its
    terminal-command branch on such a rule and its answer does not depend
    on the call's arguments: argument restrictions of loaded rules act
    through [argumentMatches] only. *)
Theorem loaded_policy_ignores_arguments pattern perm policy :
  parseToolPattern pattern perm = Ok policy ->
  JsString.includes "(" (tool policy) = false /\
  commandMatch (tool policy) = None /\
  forall toolName args args',
    matchesToolPattern toolName (tool policy) args =
    matchesToolPattern toolName (tool policy) args'.
Proof.
  unfold parseToolPattern.
  destruct (toolPatternMatch pattern) as [[name a]|] eqn:E; [|discriminate].
  intros [= <-]. cbn [tool].
  apply toolPatternMatch_spec in E as (_ & Hname & _).
  apply (excludes_trim "(") in Hname. rewrite excludes_includes in Hname.
  apply negb_true_iff in Hname.
  pose proof (commandMatch_needs_parenthesis _ Hname) as Hc.
  split; [exact Hname|]. split; [exact Hc|].
  intros toolName args args'. unfold matchesToolPattern. rewrite Hc. reflexivity.
Qed.

(** X7.  [permissionPolicyToToolPolicy] and [toolPolicyToPermissionPolicy]
    are inverse to each other. *)
Theorem policy_conversions_are_inverse :
  (forall p, toolPolicyToPermissionPolicy (permissionPolicyToToolPolicy p) = p) /\
  (forall q, permissionPolicyToToolPolicy (toolPolicyToPermissionPolicy q) = q).
Proof. split; intros []; reflexivity. Qed.

(** X8.  The [matchedPolicy] that [checkToolPermission] reports is the
    first applicable rule of the list, with or without a dynamic evaluator
    and whatever the evaluator answers. *)
Theorem matched_policy_is_first_applicable toolName args perms processedArgs t :
  matchedPolicy (checkToolPermission toolName args perms processedArgs t) =
  List.find (policyApplies toolName args) (policies perms).
Proof.
  unfold checkToolPermission. rewrite scanPolicies_find.
  destruct (List.find _ (policies perms)) as [p|];
    destruct (dynamicEvaluator t) as [ev|]; try reflexivity.
  - destruct (permission p); cbn; try destruct (ev _ _ _); reflexivity.
  - cbn. destruct (ev _ _ _); reflexivity.
Qed.

Lemma scanPolicies_shadow toolName args before policy after :
  policyApplies toolName args policy = true ->
  scanPolicies toolName args (before ++ policy :: after) =
  scanPolicies toolName args (before ++ [policy]).
Proof.
  intros H. induction before as [|p before IH]; cbn [app scanPolicies].
  - rewrite H. reflexivity.
  - destruct (policyApplies toolName args p); [reflexivity | exact IH].
Qed.

(** X9.  Rules listed after a rule that applies to the call have no
    effect on the result of [checkToolPermission]. *)
Theorem rules_after_a_match_are_dead
    toolName args before policy after processedArgs t :
  policyApplies toolName args policy = true ->
  checkToolPermission toolName args {| policies := before ++ policy :: after |}
    processedArgs t =
  checkToolPermission toolName args {| policies := before ++ [policy] |}
    processedArgs t.
Proof.
  intros H. unfold checkToolPermission. cbn [policies].
  rewrite (scanPolicies_shadow _ _ _ _ after H). reflexivity.
Qed.

End MoreMatcher.

(** ** Further properties of the loader *)

Lemma toolPatternMatch_wellFormed pattern :
  toolPatternMatch pattern = None <-> ~ wellFormedPattern pattern.
Proof.
  split.
  - intros Hnone (name & Hne & Hname & [-> | (a & Ha & ->)]).
    + rewrite (proj2 (toolPatternMatch_spec name name None)) in Hnone by auto.
      discriminate.
    + rewrite (proj2 (toolPatternMatch_spec _ name (Some a))) in Hnone by auto.
      discriminate.
  - intros Hbad. destruct (toolPatternMatch pattern) as [[name args]|] eqn:E; [|reflexivity].
    apply toolPatternMatch_spec in E as (Hne & Hname & Hargs). destruct Hbad.
    exists name. destruct args as [a|]; [destruct Hargs|]; eauto 7.
Qed.

Lemma trimStart_blank s :
  JsString.forallb JsString.isTrimmed s = true -> JsString.trimStart s = EmptyString.
Proof.
  induction s as [|c s IH]; [reflexivity|]. cbn [JsString.forallb JsString.trimStart].
  intros [-> H]%andb_true_iff. apply IH, H.
Qed.

Lemma isTrimmed_not_parenthesis c :
  JsString.isTrimmed c = true -> negb (Ascii.eqb c "(") = true.
Proof. each_character c; intros H; try reflexivity; discriminate H. Qed.

Lemma blank_excludes_parenthesis s :
  JsString.forallb JsString.isTrimmed s = true -> JsString.excludes "(" s = true.
Proof.
  unfold JsString.excludes. induction s as [|c s IH]; [reflexivity|].
  cbn [JsString.forallb]. intros [Hc H]%andb_true_iff.
  rewrite (isTrimmed_not_parenthesis c Hc), (IH H). reflexivity.
Qed.

Section MoreLoader.
Context {host : JsHost}.

(** X10.  [parseToolPattern] throws, with the message that quotes the
    pattern, exactly when the pattern is not of one of its two forms; it
    returns a policy exactly when it is. *)
Theorem parseToolPattern_throws_iff_malformed pattern perm :
  (parseToolPattern pattern perm = Throw ("Invalid tool pattern: " +:+ pattern) <->
   ~ wellFormedPattern pattern) /\
  ((exists policy, parseToolPattern pattern perm = Ok policy) <->
   wellFormedPattern pattern).
Proof.
  rewrite <- toolPatternMatch_wellFormed. unfold parseToolPattern.
  destruct (toolPatternMatch pattern) as [[name args]|] eqn:E.
  - assert (wellFormedPattern pattern) as Hwf.
    { apply toolPatternMatch_spec in E as (Hne & Hname & Hargs).
      exists name. destruct args as [a|]; [destruct Hargs|]; eauto 7. }
    split; split; try discriminate; eauto.
  - apply toolPatternMatch_wellFormed in E.
    split; split; try tauto. intros [policy H]. discriminate H.
Qed.

(** X11.  A bare name is parsed into a rule for the trimmed name without
    argument patterns.  A name followed by an argument text in parentheses
    is parsed into a rule for the trimmed name whose only argument pattern
    is the trimmed text, under the key [argumentKey] gives for the trimmed
    name (the table entry; for a name the table inherits from
    [Object.prototype], the string form of that member; otherwise
    [pattern]); when the trimmed text is empty the rule has no argument
    patterns. *)
Theorem parseToolPattern_reads_name_and_argument name args perm :
  name <> EmptyString -> JsString.excludes "(" name = true ->
  JsString.excludes ")" args = true ->
  parseToolPattern name perm =
    Ok {| tool := JsString.trim name; permission := perm; argumentMatches := None |} /\
  parseToolPattern (name +:+ String "(" (args +:+ ")")) perm =
    Ok {| tool := JsString.trim name;
          permission := perm;
          argumentMatches :=
            match JsString.trim args with
            | EmptyString => None
            | trimmed =>
                Some {[ argumentKey (JsString.trim name) := JsString trimmed ]}
            end |}.
Proof.
  intros Hne Hname Hargs. unfold parseToolPattern. split.
  - rewrite (proj2 (toolPatternMatch_spec name name None)) by auto. reflexivity.
  - rewrite (proj2 (toolPatternMatch_spec _ name (Some args))) by auto.
    destruct args as [|c a]; [reflexivity|].
    destruct (JsString.trim (String c a)); reflexivity.
Qed.

(** X12.  A non-empty pattern made of white space only is not rejected:
    it is parsed into a rule whose tool name is the empty string, and that
    rule applies to no tool but one named by the empty string. *)
Theorem blank_pattern_is_a_rule_for_no_tool pattern perm :
  pattern <> EmptyString -> JsString.forallb JsString.isTrimmed pattern = true ->
  parseToolPattern pattern perm =
    Ok {| tool := EmptyString; permission := perm; argumentMatches := None |} /\
  forall toolName args,
    policyApplies toolName args
      {| tool := EmptyString; permission := perm; argumentMatches := None |} = true <->
    toolName = EmptyString.
Proof.
  intros Hne Hblank. split.
  - unfold parseToolPattern.
    rewrite (proj2 (toolPatternMatch_spec pattern pattern None))
      by (auto using blank_excludes_parenthesis).
    unfold JsString.trim. rewrite (trimStart_blank _ Hblank). reflexivity.
  - intros toolName args. unfold policyApplies, matchesToolPattern. cbn.
    destruct toolName; cbn; split; congruence.
Qed.

Lemma parseToolPattern_permission pattern perm policy :
  parseToolPattern pattern perm = Ok policy -> permission policy = perm.
Proof.
  unfold parseToolPattern. destruct (toolPatternMatch pattern) as [[name args]|];
    [|discriminate]. intros [= <-]. reflexivity.
Qed.

Lemma parseToolPattern_Throw pattern perm message :
  parseToolPattern pattern perm = Throw message -> ~ wellFormedPattern pattern.
Proof.
  intros H. apply toolPatternMatch_wellFormed, (parseToolPattern_throws pattern perm).
  eauto.
Qed.

Lemma parseToolPattern_Ok pattern perm policy :
  parseToolPattern pattern perm = Ok policy -> wellFormedPattern pattern.
Proof.
  intros H. destruct (toolPatternMatch pattern) as [[name args]|] eqn:E.
  - apply toolPatternMatch_spec in E as (Hne & Hname & Hargs).
    exists name. destruct args as [a|]; [destruct Hargs|]; eauto 7.
  - unfold parseToolPattern in H. rewrite E in H. discriminate H.
Qed.

Lemma pushPatterns_cases acc patterns perm :
  (exists parsed,
     Forall2 (fun pattern policy => parseToolPattern pattern perm = Ok policy)
       patterns parsed /\
     pushPatterns acc patterns perm = Ok (acc ++ parsed)) \/
  (exists pattern,
     pattern ∈ patterns /\ ~ wellFormedPattern pattern /\
     exists message, pushPatterns acc patterns perm = Throw message).
Proof.
  revert acc. induction patterns as [|p patterns IH]; intros acc.
  - left. exists []. split; [constructor | rewrite app_nil_r; reflexivity].
  - cbn [pushPatterns].
    destruct (parseToolPattern p perm) as [policy|m] eqn:E.
    + cbn. destruct (IH (acc ++ [policy])) as [(parsed & H2 & ->) | (q & Hq & Hbad & m & ->)].
      * left. exists (policy :: parsed). split; [constructor; assumption|].
        rewrite <- app_assoc. reflexivity.
      * right. exists q. split; [right; exact Hq|]. eauto.
    + right. exists p. split; [left|]. split; [|cbn; eauto].
      eapply parseToolPattern_Throw, E.
Qed.

Lemma pushCategory_cases acc patterns perm :
  (exists parsed,
     Forall2 (fun pattern policy => parseToolPattern pattern perm = Ok policy)
       (default [] patterns) parsed /\
     pushCategory acc patterns perm = Ok (acc ++ parsed)) \/
  (exists pattern,
     pattern ∈ default [] patterns /\ ~ wellFormedPattern pattern /\
     exists message, pushCategory acc patterns perm = Throw message).
Proof.
  destruct patterns as [ps|]; cbn [pushCategory default]; [apply pushPatterns_cases|].
  left. exists []. split; [constructor | rewrite app_nil_r; reflexivity].
Qed.

Lemma Forall2_parse_wellFormed perm patterns parsed :
  Forall2 (fun pattern policy => parseToolPattern pattern perm = Ok policy) patterns parsed ->
  Forall wellFormedPattern patterns /\ Forall (fun q => permission q = perm) parsed.
Proof.
  induction 1 as [|p q ps qs Hp _ [IH1 IH2]]; [split; constructor|].
  split; constructor; eauto using parseToolPattern_Ok, parseToolPattern_permission.
Qed.

Lemma yamlConfigToPolicies_Ok_layout config ps :
  yamlConfigToPolicies config = Ok ps ->
  exists excluded asked allowed,
    ps = excluded ++ asked ++ allowed /\
    Forall2 (fun pattern policy => parseToolPattern pattern exclude = Ok policy)
      (default [] (yamlExclude config)) excluded /\
    Forall2 (fun pattern policy => parseToolPattern pattern ask = Ok policy)
      (default [] (yamlAsk config)) asked /\
    Forall2 (fun pattern policy => parseToolPattern pattern allow = Ok policy)
      (default [] (yamlAllow config)) allowed.
Proof.
  unfold yamlConfigToPolicies.
  destruct (pushCategory_cases [] (yamlExclude config) exclude)
    as [(ex & Hex & ->) | (q & _ & _ & m & ->)]; [|discriminate]. cbn.
  destruct (pushCategory_cases ex (yamlAsk config) ask)
    as [(ak & Hak & ->) | (q & _ & _ & m & ->)]; [|discriminate]. cbn.
  destruct (pushCategory_cases (ex ++ ak) (yamlAllow config) allow)
    as [(al & Hal & ->) | (q & _ & _ & m & ->)]; [|discriminate].
  intros [= <-]. exists ex, ak, al. rewrite <- app_assoc. auto.
Qed.

Lemma yamlConfigToPolicies_Throw_iff config :
  (exists message, yamlConfigToPolicies config = Throw message) <->
  exists pattern, pattern ∈ configPatterns config /\ ~ wellFormedPattern pattern.
Proof.
  unfold configPatterns. split.
  - intros [m H]. unfold yamlConfigToPolicies in H.
    destruct (pushCategory_cases [] (yamlExclude config) exclude)
      as [(ex & Hex & E1) | (q & Hq & Hbad & _)];
      [|exists q; rewrite !elem_of_app; auto].
    rewrite E1 in H. cbn in H.
    destruct (pushCategory_cases ex (yamlAsk config) ask)
      as [(ak & Hak & E2) | (q & Hq & Hbad & _)];
      [|exists q; rewrite !elem_of_app; auto].
    rewrite E2 in H. cbn in H.
    destruct (pushCategory_cases (ex ++ ak) (yamlAllow config) allow)
      as [(al & Hal & E3) | (q & Hq & Hbad & _)];
      [|exists q; rewrite !elem_of_app; auto].
    rewrite E3 in H. discriminate H.
  - intros (q & Hq & Hbad).
    destruct (yamlConfigToPolicies config) as [ps|m] eqn:E; [|eauto].
    apply yamlConfigToPolicies_Ok_layout in E as (ex & ak & al & _ & Hex & Hak & Hal).
    apply Forall2_parse_wellFormed in Hex as [Hex _], Hak as [Hak _], Hal as [Hal _].
    rewrite !elem_of_app in Hq. rewrite Forall_forall in Hex, Hak, Hal.
    destruct Hbad. destruct Hq as [Hq | [Hq | Hq]]; eauto.
Qed.

(** X13.  When [yamlConfigToPolicies] returns, its list is the parsed
    exclude patterns, then the parsed ask patterns, then the parsed allow
    patterns, each in the order of its list (an absent list counting as
    empty); it has one policy for each pattern. *)
Theorem yamlConfigToPolicies_layout config ps :
  yamlConfigToPolicies config = Ok ps ->
  (exists excluded asked allowed,
     ps = excluded ++ asked ++ allowed /\
     Forall2 (fun pattern policy => parseToolPattern pattern exclude = Ok policy)
       (default [] (yamlExclude config)) excluded /\
     Forall2 (fun pattern policy => parseToolPattern pattern ask = Ok policy)
       (default [] (yamlAsk config)) asked /\
     Forall2 (fun pattern policy => parseToolPattern pattern allow = Ok policy)
       (default [] (yamlAllow config)) allowed) /\
  length ps = length (configPatterns config).
Proof.
  intros H.
  destruct (yamlConfigToPolicies_Ok_layout _ _ H) as (ex & ak & al & -> & Hex & Hak & Hal).
  split; [exists ex, ak, al; auto|].
  unfold configPatterns. rewrite !length_app.
  rewrite (Forall2_length _ _ _ Hex), (Forall2_length _ _ _ Hak),
    (Forall2_length _ _ _ Hal). reflexivity.
Qed.

Lemma uniform_descending perm (ps : list ToolPermissionPolicy) :
  Forall (fun q => permission q = perm) ps ->
  StronglySorted
    (fun p q => restrictiveness (permission q) <= restrictiveness (permission p)) ps.
Proof.
  induction 1 as [|p ps Hp Hps IH]; constructor; [exact IH|].
  rewrite Forall_forall in *. intros q Hq. rewrite Hp, (Hps q Hq). lia.
Qed.

Lemma scanPolicies_descending toolName args ps q :
  StronglySorted
    (fun p q => restrictiveness (permission q) <= restrictiveness (permission p)) ps ->
  q ∈ ps -> policyApplies toolName args q = true ->
  restrictiveness (permission q) <=
  restrictiveness (fst (scanPolicies toolName args ps)).
Proof.
  induction 1 as [|p ps _ IH Hp]; intros Hq Happ; [inversion Hq|].
  cbn [scanPolicies]. destruct (policyApplies toolName args p) eqn:E.
  - cbn [fst]. apply elem_of_cons in Hq as [-> | Hq]; [lia|].
    rewrite Forall_forall in Hp. apply Hp, Hq.
  - apply elem_of_cons in Hq as [-> | Hq]; [congruence|]. apply IH; assumption.
Qed.

Lemma resultPermission_at_least_static toolName args perms processedArgs t :
  restrictiveness (fst (scanPolicies toolName args (policies perms))) <=
  restrictiveness
    (resultPermission (checkToolPermission toolName args perms processedArgs t)).
Proof.
  unfold checkToolPermission.
  destruct (scanPolicies toolName args (policies perms)) as [b m]. cbn [fst].
  destruct (dynamicEvaluator t) as [ev|]; [|reflexivity].
  destruct b; cbn; try destruct (ev _ _ _); cbn; lia.
Qed.

(** X15.  Against a list made by [yamlConfigToPolicies], the permission
    [checkToolPermission] returns is at least as restrictive as that of
    every rule that applies to the call, wherever the rule stood in the
    configuration. *)
Theorem loaded_policies_most_restrictive_wins
    config ps toolName args processedArgs t q :
  yamlConfigToPolicies config = Ok ps ->
  q ∈ ps -> policyApplies toolName args q = true ->
  restrictiveness (permission q) <=
  restrictiveness
    (resultPermission
       (checkToolPermission toolName args {| policies := ps |} processedArgs t)).
Proof.
  intros (ex & ak & al & -> & Hex & Hak & Hal)%yamlConfigToPolicies_Ok_layout Hq Happ.
  apply Forall2_parse_wellFormed in Hex as [_ Hex], Hak as [_ Hak], Hal as [_ Hal].
  etrans; [|apply resultPermission_at_least_static]. cbn [policies].
  apply scanPolicies_descending; [|assumption..].
  rewrite !StronglySorted_app. repeat split; eauto using uniform_descending;
    rewrite Forall_forall in Hex, Hak, Hal; intros x1 x2 H1 H2.
  - apply elem_of_app in H2 as [H2 | H2];
      rewrite (Hex x1 H1); [rewrite (Hak x2 H2) | rewrite (Hal x2 H2)]; cbn; lia.
  - rewrite (Hak x1 H1), (Hal x2 H2). cbn. lia.
Qed.

End MoreLoader.

Section MoreFilter.
Context {host : JsHost}.

Lemma excluded_iff toolName args perms processedArgs t :
  resultPermission (checkToolPermission toolName args perms processedArgs (Some t))
  = exclude <->
  staticBase toolName args (policies perms) = exclude \/
  exists evaluate,
    evaluateToolCallPolicy t = Some evaluate /\
    evaluate (permissionPolicyToToolPolicy (staticBase toolName args (policies perms)))
      args processedArgs = disabled.
Proof.
  unfold checkToolPermission. rewrite <- scanPolicies_base.
  destruct (scanPolicies toolName args (policies perms)) as [b m].
  cbn [dynamicEvaluator mbind option_bind fst].
  destruct (evaluateToolCallPolicy t) as [ev|]; cbn.
  - destruct b; cbn; [| |split; auto];
      destruct (ev _ args processedArgs) eqn:E; cbn; split;
      try discriminate; eauto;
      intros [H | (ev' & [= <-] & H)]; congruence.
  - split; [auto|]. intros [H | (ev' & H & _)]; [exact H | discriminate].
Qed.

(** X16.  [filterExcludedTools] keeps a tool of the list exactly when the
    static permission of its name with empty arguments is not exclude and
    its dynamic evaluator, if any, does not answer disabled to that base
    permission, the empty arguments and no processed arguments. *)
Theorem filterExcludedTools_keeps tools perms t :
  t ∈ filterExcludedTools tools perms <->
  t ∈ tools /\
  staticBase (functionName t) ∅ (policies perms) <> exclude /\
  forall evaluate,
    evaluateToolCallPolicy t = Some evaluate ->
    evaluate
      (permissionPolicyToToolPolicy (staticBase (functionName t) ∅ (policies perms)))
      ∅ None <> disabled.
Proof.
  unfold filterExcludedTools. rewrite !list_elem_of_In, filter_In.
  assert (forall p, match p with exclude => false | _ => true end = true <-> p <> exclude)
    as Hne by (intros []; split; congruence).
  rewrite Hne, excluded_iff. split.
  - intros [Hin Hkeep]. split; [exact Hin|]. split; [tauto|].
    intros ev Hev Hd. apply Hkeep. eauto.
  - intros (Hin & Hbase & Hev). split; [exact Hin|].
    intros [H | (ev & H1 & H2)]; [tauto | exact (Hev ev H1 H2)].
Qed.

(** X17.  Filtering an already filtered list with the same permissions
    changes nothing. *)
Theorem filterExcludedTools_idempotent tools perms :
  filterExcludedTools (filterExcludedTools tools perms) perms =
  filterExcludedTools tools perms.
Proof.
  unfold filterExcludedTools. induction tools as [|t tools IH]; [reflexivity|].
  cbn [List.filter].
  destruct (resultPermission (checkToolPermission (functionName t) ∅ perms None (Some t)))
    eqn:E; cbn [List.filter]; rewrite ?E, IH; reflexivity.
Qed.

End MoreFilter.

Lemma wellFormedPattern_decide pattern :
  wellFormedPattern pattern \/ ~ wellFormedPattern pattern.
Proof.
  destruct (toolPatternMatch pattern) as [[name args]|] eqn:E.
  - left. apply toolPatternMatch_spec in E as (Hne & Hname & Hargs).
    exists name. destruct args as [a|]; [destruct Hargs|]; eauto 7.
  - right. apply toolPatternMatch_wellFormed, E.
Qed.

Section MoreService.
Context {host : JsHost}.

Lemma yamlConfigToPolicies_Ok_iff config :
  (exists ps, yamlConfigToPolicies config = Ok ps) <->
  Forall wellFormedPattern (configPatterns config).
Proof.
  rewrite Forall_forall. split.
  - intros [ps H] p Hp.
    destruct (wellFormedPattern_decide p) as [Hwf | Hbad]; [exact Hwf|].
    assert (exists m, yamlConfigToPolicies config = Throw m) as [m Hm].
    { apply yamlConfigToPolicies_Throw_iff. eauto. }
    congruence.
  - intros H. destruct (yamlConfigToPolicies config) as [ps|m] eqn:E; [eauto|].
    destruct (proj1 (yamlConfigToPolicies_Throw_iff config)) as (p & Hp & Hbad);
      [eauto|]. destruct (Hbad (H p Hp)).
Qed.
(** X14.  [yamlConfigToPolicies] throws exactly when some pattern of the
    configuration is not of one of the two forms [parseToolPattern]
    accepts. *)
Theorem yamlConfigToPolicies_throws_iff_malformed config :
  ((exists message, yamlConfigToPolicies config = Throw message) <->
   exists pattern, pattern ∈ configPatterns config /\ ~ wellFormedPattern pattern) /\
  ((exists ps, yamlConfigToPolicies config = Ok ps) <->
   Forall wellFormedPattern (configPatterns config)).
Proof.
  split; [apply yamlConfigToPolicies_Throw_iff | apply yamlConfigToPolicies_Ok_iff].
Qed.

End MoreService.

Section MoreService2.
Context {host : JsHost}.

Lemma reload_permissions yamlConfig this :
  permissions (reload yamlConfig this) =
  match yamlConfig with
  | Some config =>
      match yamlConfigToPolicies config with
      | Ok ps => Some {| policies := ps |}
      | Throw _ => None
      end
  | None => None
  end.
Proof. reflexivity. Qed.

(** X18.  After a reload that found no configuration, or one with a
    pattern that does not parse, the service holds no permissions and
    [checkPermission] returns allow with no matched rule for every call. *)
Theorem unloadable_configuration_allows_everything
    yamlConfig this t args processedArgs :
  yamlConfig = None \/
  (exists config pattern,
     yamlConfig = Some config /\ pattern ∈ configPatterns config /\
     ~ wellFormedPattern pattern) ->
  getPermissions (reload yamlConfig this) = None /\
  isEnabled (reload yamlConfig this) = false /\
  checkPermission (reload yamlConfig this) t args processedArgs =
    {| resultPermission := allow; matchedPolicy := None |}.
Proof.
  intros H.
  assert (permissions (reload yamlConfig this) = None) as Hnone.
  { rewrite reload_permissions. destruct H as [-> | (c & p & -> & Hp & Hbad)]; [reflexivity|].
    destruct (proj2 (yamlConfigToPolicies_Throw_iff c)) as [m ->]; eauto. }
  unfold getPermissions, isEnabled, checkPermission. rewrite Hnone.
  split; [reflexivity|]. split; [apply andb_false_r|].
  destruct (enabled _); reflexivity.
Qed.

(** X19.  After [initialize] the service is enabled exactly when the
    configuration file could be ensured and a configuration was loaded all
    of whose patterns parse, whether or not the watcher could be set up;
    [checkPermission] then evaluates against the normalised list. *)
Theorem initialize_enables_iff_loaded ensured yamlConfig watched this :
  (isEnabled (initialize ensured yamlConfig watched this) = true <->
   ensured = true /\
   exists config,
     yamlConfig = Some config /\ Forall wellFormedPattern (configPatterns config)) /\
  (forall config ps t args processedArgs,
     ensured = true -> yamlConfig = Some config ->
     yamlConfigToPolicies config = Ok ps ->
     checkPermission (initialize ensured yamlConfig watched this) t args processedArgs =
     checkToolPermission (functionName t) args {| policies := ps |} processedArgs
       (Some t)).
Proof.
  split.
  - unfold isEnabled, initialize. destruct ensured; cbn.
    + assert (permissions (setupFileWatcher watched (reload yamlConfig this))
              = permissions (reload yamlConfig this)) as ->
        by (destruct watched; reflexivity).
      rewrite reload_permissions. destruct yamlConfig as [c|].
      * destruct (yamlConfigToPolicies c) as [ps|m] eqn:E.
        { split; [|reflexivity]. intros _. split; [reflexivity|]. exists c.
          split; [reflexivity|]. apply yamlConfigToPolicies_Ok_iff. eauto. }
        { split; [discriminate|]. intros [_ (c' & [= <-] & Hwf)].
          apply yamlConfigToPolicies_Ok_iff in Hwf as [ps Hps]. congruence. }
      * split; [discriminate|]. intros [_ (c & H & _)]. discriminate H.
    + split; [discriminate|]. intros [H _]. discriminate H.
  - intros c ps t args pa -> -> Hps. unfold checkPermission, initialize. cbn.
    assert (permissions (setupFileWatcher watched (reload (Some c) this))
            = Some {| policies := ps |}) as ->.
    { destruct watched; cbn; rewrite Hps; reflexivity. }
    reflexivity.
Qed.

Lemma onWatchEvent_keeps eventType yamlConfig this :
  enabled (onWatchEvent eventType yamlConfig this) = enabled this /\
  watchHandle (onWatchEvent eventType yamlConfig this) = watchHandle this.
Proof. unfold onWatchEvent. destruct (String.eqb eventType "change"); split; reflexivity. Qed.

(** X20.  Watch events, of whatever types and with whatever loads, change
    neither the enabled flag nor the watch handle; a service that is not
    enabled keeps answering allow. *)
Theorem watch_events_keep_enabled_flag events this :
  enabled (onWatchEvents events this) = enabled this /\
  watchHandle (onWatchEvents events this) = watchHandle this /\
  (enabled this = false ->
   forall t args processedArgs,
     checkPermission (onWatchEvents events this) t args processedArgs =
     {| resultPermission := allow; matchedPolicy := None |}).
Proof.
  assert (enabled (onWatchEvents events this) = enabled this /\
          watchHandle (onWatchEvents events this) = watchHandle this) as [He Hw].
  { unfold onWatchEvents. revert this.
    induction events as [|[ty y] events IH]; intros this; [split; reflexivity|].
    cbn [fold_left]. destruct (IH (onWatchEvent ty y this)) as [-> ->].
    apply onWatchEvent_keeps. }
  split; [exact He|]. split; [exact Hw|].
  intros Hoff t args pa. unfold checkPermission. rewrite He, Hoff. reflexivity.
Qed.

End MoreService2.

(** ** The nested-block look-ahead *)

Section MoreNestedBlock.
Variable headerIsMarkdown : string -> bool.

Lemma bareBackticksAhead_cut pre line post :
  isBareBackticks line = false -> endsMarkdownBlock headerIsMarkdown line = true ->
  bareBackticksAhead headerIsMarkdown (pre ++ line :: post) =
  bareBackticksAhead headerIsMarkdown (pre ++ [line]).
Proof.
  intros Hbare Hend. induction pre as [|l pre IH]; cbn [app bareBackticksAhead].
  - rewrite Hbare, Hend. reflexivity.
  - rewrite IH. reflexivity.
Qed.

(** X21.  Lines that come after a line ending the markdown block do not
    change the verdict for an index before that line. *)
Theorem lines_after_block_end_are_ignored pre line post currentIndex nestCount :
  S currentIndex <= length pre ->
  isBareBackticks line = false -> endsMarkdownBlock headerIsMarkdown line = true ->
  isOpeningNestedBlock headerIsMarkdown (pre ++ line :: post) currentIndex nestCount =
  isOpeningNestedBlock headerIsMarkdown (pre ++ [line]) currentIndex nestCount.
Proof.
  intros Hi Hbare Hend. unfold isOpeningNestedBlock.
  destruct (1 <? nestCount); [reflexivity|].
  rewrite !drop_app_le by exact Hi.
  rewrite (bareBackticksAhead_cut _ _ post Hbare Hend). reflexivity.
Qed.

(** X22.  At nesting depth at most one, the verdict at an index follows
    from the next line and the verdict at the next index: negated when the
    next line is bare backticks, false when it ends the markdown block, the
    same otherwise. *)
Theorem look_ahead_step lines currentIndex nestCount next :
  nestCount <= 1 -> lines !! (S currentIndex) = Some next ->
  isOpeningNestedBlock headerIsMarkdown lines currentIndex nestCount =
  if isBareBackticks next
  then negb (isOpeningNestedBlock headerIsMarkdown lines (S currentIndex) nestCount)
  else if endsMarkdownBlock headerIsMarkdown next then false
  else isOpeningNestedBlock headerIsMarkdown lines (S currentIndex) nestCount.
Proof.
  intros Hn Hnext. unfold isOpeningNestedBlock.
  assert ((1 <? nestCount) = false) as -> by (apply Nat.ltb_ge, Hn).
  rewrite (drop_S _ _ _ Hnext). cbn [bareBackticksAhead].
  destruct (isBareBackticks next).
  - rewrite Nat.odd_succ, <- Nat.negb_odd. reflexivity.
  - destruct (endsMarkdownBlock headerIsMarkdown next); reflexivity.
Qed.

Lemma bareBackticksAhead_positive lines :
  0 < bareBackticksAhead headerIsMarkdown lines ->
  exists j line, lines !! j = Some line /\ isBareBackticks line = true.
Proof.
  induction lines as [|l lines IH]; cbn [bareBackticksAhead]; [lia|].
  destruct (isBareBackticks l) eqn:E.
  - intros _. exists 0, l. auto.
  - destruct (endsMarkdownBlock headerIsMarkdown l); [lia|].
    intros (j & line & Hj & Hline)%IH. exists (S j), line. auto.
Qed.

(** X23.  [isOpeningNestedBlock] answers true only at nesting depth at
    most one and only when a line of bare backticks lies after the current
    index; in particular never at the last line. *)
Theorem opening_needs_a_bare_line_ahead lines currentIndex nestCount :
  isOpeningNestedBlock headerIsMarkdown lines currentIndex nestCount = true ->
  nestCount <= 1 /\
  exists j line,
    currentIndex < j /\ lines !! j = Some line /\ isBareBackticks line = true.
Proof.
  unfold isOpeningNestedBlock. destruct (1 <? nestCount) eqn:Hn; [discriminate|].
  apply Nat.ltb_ge in Hn. intros Hodd. split; [exact Hn|].
  destruct (bareBackticksAhead_positive (drop (S currentIndex) lines))
    as (j & line & Hj & Hline).
  { destruct (bareBackticksAhead _ _); [discriminate Hodd | lia]. }
  rewrite lookup_drop in Hj. exists (S currentIndex + j), line.
  split; [lia | auto].
Qed.

End MoreNestedBlock.

(** The exclude entry of the restricted environment of README.md is placed
    before its allow entries, so the allowed command is excluded too. *)
Example restricted_environment_excludes_git_status :
  (ps ← yamlConfigToPolicies restrictedConfig;
   Ok (resultPermission
         (checkToolPermission "run_terminal_command"
            {[ "command" := JsString "git status" ]} {| policies := ps |} None None)))
  = Ok exclude.
Proof. vm_compute. reflexivity. Qed.

(** ** Instances of the further properties *)

Lemma prefix_pattern_matches_prefix_witness :
  "sudo" <> EmptyString /\
  hasWildcard "sudo" = false /\
  (matchesArguments {[ "command" := JsString "sudo rm" ]}
     (Some {[ "command" := JsString ("sudo" +:+ "*") ]}) = true <->
   exists rest,
     argumentText {[ "command" := JsString "sudo rm" ]} "command" = "sudo" +:+ rest /\
     JsString.lineFree rest = true).
Proof.
  assert (H1 : "sudo" <> EmptyString) by discriminate.
  assert (H2 : hasWildcard "sudo" = false) by reflexivity.
  exact (conj H1 (conj H2
    (prefix_pattern_matches_prefix {[ "command" := JsString "sudo rm" ]}
       "command" "sudo" H1 H2))).
Defined.

Lemma missing_argument_matches_only_stars_witness :
  (((∅ : gmap string JsValue) !! "command" = None /\
    isObjectPrototypeKey "command" = false) \/
   (∅ : gmap string JsValue) !! "command" = Some JsNull \/
   (∅ : gmap string JsValue) !! "command" = Some JsUndefined) /\
  (matchesArguments ∅ (Some {[ "command" := JsString "sudo*" ]}) = true <->
   "sudo*" <> EmptyString /\ JsString.forallb (Ascii.eqb "*") "sudo*" = true).
Proof.
  assert (H : ((∅ : gmap string JsValue) !! "command" = None /\
               isObjectPrototypeKey "command" = false) \/
              (∅ : gmap string JsValue) !! "command" = Some JsNull \/
              (∅ : gmap string JsValue) !! "command" = Some JsUndefined)
    by (left; split; reflexivity).
  exact (conj H (missing_argument_matches_only_stars ∅ "command" "sudo*" H)).
Defined.

Lemma undeclared_argument_is_ignored_witness :
  ({[ "command" := JsString "git*" ]} : gmap string JsValue) !! "cwd" = None /\
  matchesArguments (<[ "cwd" := JsString "/" ]> {[ "command" := JsString "git log" ]})
    (Some {[ "command" := JsString "git*" ]}) =
  matchesArguments {[ "command" := JsString "git log" ]}
    (Some {[ "command" := JsString "git*" ]}).
Proof.
  assert (H : ({[ "command" := JsString "git*" ]} : gmap string JsValue) !! "cwd" = None)
    by reflexivity.
  exact (conj H
    (undeclared_argument_is_ignored {[ "command" := JsString "git log" ]}
       {[ "command" := JsString "git*" ]} "cwd" (JsString "/") H)).
Defined.

Lemma terminal_pattern_tests_command_witness :
  isTerminalTool "run_terminal_command" = true /\
  terminalShape "run_terminal_command(git*)" "git*" /\
  "git*" <> EmptyString /\
  JsString.lineFree "git*" = true /\
  (matchesToolPattern "run_terminal_command" "run_terminal_command(git*)"
     (Some {[ "command" := JsString "git status" ]}) = true <->
   truthy (commandOf (Some {[ "command" := JsString "git status" ]})) = true /\
   GlobMatch notLineTerminator "git*"
     (toString (commandOf (Some {[ "command" := JsString "git status" ]})))).
Proof.
  assert (H1 : isTerminalTool "run_terminal_command" = true) by reflexivity.
  assert (H2 : terminalShape "run_terminal_command(git*)" "git*").
  { exists "run_terminal_command". split; [left|]; reflexivity. }
  assert (H3 : "git*" <> EmptyString) by discriminate.
  assert (H4 : JsString.lineFree "git*" = true) by reflexivity.
  exact (conj H1 (conj H2 (conj H3 (conj H4
    (terminal_pattern_tests_command "run_terminal_command"
       "run_terminal_command(git*)" "git*"
       (Some {[ "command" := JsString "git status" ]}) H1 H2 H3 H4))))).
Defined.

Lemma loaded_policy_ignores_arguments_witness :
  parseToolPattern "run_terminal_command(sudo*)" exclude = Ok excludeSudo /\
  JsString.includes "(" (tool excludeSudo) = false /\
  commandMatch (tool excludeSudo) = None /\
  forall toolName args args',
    matchesToolPattern toolName (tool excludeSudo) args =
    matchesToolPattern toolName (tool excludeSudo) args'.
Proof.
  assert (H : parseToolPattern "run_terminal_command(sudo*)" exclude = Ok excludeSudo)
    by (vm_compute; reflexivity).
  exact (conj H
    (loaded_policy_ignores_arguments "run_terminal_command(sudo*)" exclude excludeSudo H)).
Defined.

Lemma rules_after_a_match_are_dead_witness :
  policyApplies "run" ∅ askRun = true /\
  checkToolPermission "run" ∅ {| policies := [] ++ askRun :: [allowAll] |} None None =
  checkToolPermission "run" ∅ {| policies := [] ++ [askRun] |} None None.
Proof.
  assert (H : policyApplies "run" ∅ askRun = true) by reflexivity.
  exact (conj H (rules_after_a_match_are_dead "run" ∅ [] askRun [allowAll] None None H)).
Defined.

Lemma parseToolPattern_reads_name_and_argument_witness :
  " read_file " <> EmptyString /\
  JsString.excludes "(" " read_file " = true /\
  JsString.excludes ")" " /etc/* " = true /\
  parseToolPattern " read_file " ask =
    Ok {| tool := JsString.trim " read_file "; permission := ask;
          argumentMatches := None |} /\
  parseToolPattern (" read_file " +:+ String "(" (" /etc/* " +:+ ")")) ask =
    Ok {| tool := JsString.trim " read_file ";
          permission := ask;
          argumentMatches :=
            match JsString.trim " /etc/* " with
            | EmptyString => None
            | trimmed =>
                Some {[ argumentKey (JsString.trim " read_file ") := JsString trimmed ]}
            end |}.
Proof.
  assert (H1 : " read_file " <> EmptyString) by discriminate.
  assert (H2 : JsString.excludes "(" " read_file " = true) by reflexivity.
  assert (H3 : JsString.excludes ")" " /etc/* " = true) by reflexivity.
  exact (conj H1 (conj H2 (conj H3
    (parseToolPattern_reads_name_and_argument " read_file " " /etc/* " ask H1 H2 H3)))).
Defined.

Lemma blank_pattern_is_a_rule_for_no_tool_witness :
  "  " <> EmptyString /\
  JsString.forallb JsString.isTrimmed "  " = true /\
  parseToolPattern "  " exclude =
    Ok {| tool := EmptyString; permission := exclude; argumentMatches := None |} /\
  forall toolName args,
    policyApplies toolName args
      {| tool := EmptyString; permission := exclude; argumentMatches := None |} = true <->
    toolName = EmptyString.
Proof.
  assert (H1 : "  " <> EmptyString) by discriminate.
  assert (H2 : JsString.forallb JsString.isTrimmed "  " = true) by reflexivity.
  exact (conj H1 (conj H2 (blank_pattern_is_a_rule_for_no_tool "  " exclude H1 H2))).
Defined.

Lemma yamlConfigToPolicies_layout_witness :
  yamlConfigToPolicies endToEndConfig = Ok endToEndPolicies /\
  length endToEndPolicies = length (configPatterns endToEndConfig).
Proof.
  assert (H : yamlConfigToPolicies endToEndConfig = Ok endToEndPolicies)
    by (vm_compute; reflexivity).
  exact (conj H (proj2 (yamlConfigToPolicies_layout endToEndConfig endToEndPolicies H))).
Defined.

Lemma loaded_policies_most_restrictive_wins_witness :
  yamlConfigToPolicies endToEndConfig = Ok endToEndPolicies /\
  excludeSudo ∈ endToEndPolicies /\
  policyApplies "run_terminal_command" {[ "command" := JsString "sudo ls" ]} excludeSudo
    = true /\
  restrictiveness (permission excludeSudo) <=
  restrictiveness
    (resultPermission
       (checkToolPermission "run_terminal_command" {[ "command" := JsString "sudo ls" ]}
          {| policies := endToEndPolicies |} None None)).
Proof.
  assert (H1 : yamlConfigToPolicies endToEndConfig = Ok endToEndPolicies)
    by (vm_compute; reflexivity).
  assert (H2 : excludeSudo ∈ endToEndPolicies) by apply list_elem_of_here.
  assert (H3 : policyApplies "run_terminal_command"
                 {[ "command" := JsString "sudo ls" ]} excludeSudo = true)
    by (vm_compute; reflexivity).
  exact (conj H1 (conj H2 (conj H3
    (loaded_policies_most_restrictive_wins endToEndConfig endToEndPolicies
       "run_terminal_command" {[ "command" := JsString "sudo ls" ]} None None
       excludeSudo H1 H2 H3)))).
Defined.

Lemma unloadable_configuration_allows_everything_witness :
  "run_terminal_command(sudo*" ∈ configPatterns malformedConfig /\
  ~ wellFormedPattern "run_terminal_command(sudo*" /\
  checkPermission
    (reload (Some malformedConfig)
       {| permissions := Some {| policies := [excludeGrep] |};
          watchHandle := None; enabled := true |})
    (plainTool "grep_search") ∅ None =
  {| resultPermission := allow; matchedPolicy := None |}.
Proof.
  assert (H1 : "run_terminal_command(sudo*" ∈ configPatterns malformedConfig)
    by apply list_elem_of_here.
  assert (H2 : ~ wellFormedPattern "run_terminal_command(sudo*").
  { apply toolPatternMatch_wellFormed. reflexivity. }
  exact (conj H1 (conj H2 (proj2 (proj2
    (unloadable_configuration_allows_everything (Some malformedConfig)
       {| permissions := Some {| policies := [excludeGrep] |};
          watchHandle := None; enabled := true |}
       (plainTool "grep_search") ∅ None
       (or_intror (ex_intro _ malformedConfig
          (ex_intro _ "run_terminal_command(sudo*" (conj eq_refl (conj H1 H2)))))))))).
Defined.

Lemma lines_after_block_end_are_ignored_witness :
  S 0 <= length ["```"; "let x = 1"; "```"] /\
  isBareBackticks "~~~" = false /\
  endsMarkdownBlock exampleHeaderIsMarkdown "~~~" = true /\
  isOpeningNestedBlock exampleHeaderIsMarkdown
    (["```"; "let x = 1"; "```"] ++ "~~~" :: ["```"]) 0 1 =
  isOpeningNestedBlock exampleHeaderIsMarkdown
    (["```"; "let x = 1"; "```"] ++ ["~~~"]) 0 1.
Proof.
  assert (H1 : S 0 <= length ["```"; "let x = 1"; "```"]) by (cbn; lia).
  assert (H2 : isBareBackticks "~~~" = false) by reflexivity.
  assert (H3 : endsMarkdownBlock exampleHeaderIsMarkdown "~~~" = true) by reflexivity.
  exact (conj H1 (conj H2 (conj H3
    (lines_after_block_end_are_ignored exampleHeaderIsMarkdown
       ["```"; "let x = 1"; "```"] "~~~" ["```"] 0 1 H1 H2 H3)))).
Defined.

Lemma look_ahead_step_witness :
  1 <= 1 /\
  exampleLines !! 2 = Some "```" /\
  isOpeningNestedBlock exampleHeaderIsMarkdown exampleLines 1 1 =
  negb (isOpeningNestedBlock exampleHeaderIsMarkdown exampleLines 2 1).
Proof.
  assert (H1 : 1 <= 1) by lia.
  assert (H2 : exampleLines !! 2 = Some "```") by reflexivity.
  exact (conj H1 (conj H2
    (look_ahead_step exampleHeaderIsMarkdown exampleLines 1 1 "```" H1 H2))).
Defined.

Lemma opening_needs_a_bare_line_ahead_witness :
  isOpeningNestedBlock exampleHeaderIsMarkdown exampleLines 0 1 = true /\
  1 <= 1 /\
  exists j line,
    0 < j /\ exampleLines !! j = Some line /\ isBareBackticks line = true.
Proof.
  assert (H : isOpeningNestedBlock exampleHeaderIsMarkdown exampleLines 0 1 = true)
    by reflexivity.
  exact (conj H
    (opening_needs_a_bare_line_ahead exampleHeaderIsMarkdown exampleLines 0 1 H)).
Defined.
